(** * README and metadata checkers of the samples repository

    A shallow embedding of [Scripts/CI/common.py] and of [run_check] in
    [Scripts/CI/metadata_checker.py], with the properties of the parsing,
    derivation and consistency rules proved about it.

    Python [str] values are modelled as [string]: a character stands for a
    code point below 256.  The parts of the Python runtime that depend on
    Unicode tables or on the platform (letter case, path normalisation, the
    JSON serialiser) are interfaces, with an ASCII instance to run examples. *)

From Stdlib Require Import Ascii String.
From stdpp Require Import base option list sorting gmap strings.

Local Open Scope char_scope.

(** ** Python string primitives *)

Module Py.

(** [str.isspace] on one character, for code points below 256:
    U+0009..U+000D, U+001C..U+0020, U+0085 and U+00A0. *)
Definition isspace (c : ascii) : bool :=
  match c with
  | "009" | "010" | "011" | "012" | "013"
  | "028" | "029" | "030" | "031" | " " | "133" | "160" => true
  | _ => false
  end.

(** The line boundaries of [str.splitlines], for code points below 256. *)
Definition islinebreak (c : ascii) : bool :=
  match c with
  | "010" | "011" | "012" | "013" | "028" | "029" | "030" | "133" => true
  | _ => false
  end.

Fixpoint mem (c : ascii) (chars : string) : bool :=
  match chars with
  | EmptyString => false
  | String d chars' => Ascii.eqb c d || mem c chars'
  end.

(** [s.lstrip(chars)] and [s.rstrip(chars)], by a predicate on characters. *)
Fixpoint lstrip_by (p : ascii → bool) (s : string) : string :=
  match s with
  | EmptyString => EmptyString
  | String c s' => if p c then lstrip_by p s' else s
  end.

Definition rstrip_by (p : ascii → bool) (s : string) : string :=
  String.rev (lstrip_by p (String.rev s)).

Definition lstrip_chars (chars s : string) : string :=
  lstrip_by (λ c, mem c chars) s.
Definition lstrip (s : string) : string := lstrip_by isspace s.
Definition rstrip (s : string) : string := rstrip_by isspace s.
Definition strip (s : string) : string := rstrip (lstrip s).

(** [s.splitlines()]: [cur] is the current line, reversed. *)
Fixpoint splitlines_go (cur : string) (s : string) : list string :=
  match s with
  | EmptyString =>
      match cur with
      | EmptyString => []
      | _ => [String.rev cur]
      end
  | String c s' =>
      if Ascii.eqb c "013" then
        match s' with
        | String "010" s'' => String.rev cur :: splitlines_go EmptyString s''
        | _ => String.rev cur :: splitlines_go EmptyString s'
        end
      else if islinebreak c then
        String.rev cur :: splitlines_go EmptyString s'
      else splitlines_go (String c cur) s'
  end.
Definition splitlines (s : string) : list string :=
  splitlines_go EmptyString s.

(** [s.split(sep)] for a separator of one character. *)
Fixpoint split_go (sep : ascii) (cur : string) (s : string) : list string :=
  match s with
  | EmptyString => [String.rev cur]
  | String c s' =>
      if Ascii.eqb c sep then String.rev cur :: split_go sep EmptyString s'
      else split_go sep (String c cur) s'
  end.
Definition split (sep : ascii) (s : string) : list string :=
  split_go sep EmptyString s.

(** [sep.join(l)]. *)
Fixpoint join (sep : string) (l : list string) : string :=
  match l with
  | [] => EmptyString
  | [x] => x
  | x :: l' => x +:+ sep +:+ join sep l'
  end.

(** [needle in hay] on strings: [needle] occurs in [hay] as a contiguous
    run of characters. *)
Fixpoint startswith (hay needle : string) {struct needle} : bool :=
  match needle, hay with
  | EmptyString, _ => true
  | String _ _, EmptyString => false
  | String a needle', String b hay' => Ascii.eqb a b && startswith hay' needle'
  end.

Fixpoint contains (hay needle : string) : bool :=
  startswith hay needle ||
  match hay with
  | EmptyString => false
  | String _ hay' => contains hay' needle
  end.

(** [bool(s)] of a string: non-empty. *)
Definition truthy (s : string) : bool :=
  match s with EmptyString => false | _ => true end.

(** [filter(bool, l)]. *)
Definition filter_nonempty (l : list string) : list string :=
  List.filter truthy l.

Fixpoint remove_chars (p : ascii → bool) (s : string) : string :=
  match s with
  | EmptyString => EmptyString
  | String c s' => if p c then remove_chars p s' else String c (remove_chars p s')
  end.

(** [sorted(l, key=key)]: a stable sort on the code-point order of the
    keys.  [sorted(l)] is the case of the identity key. *)
Fixpoint insert_by (key : string → string) (x : string) (l : list string)
  : list string :=
  match l with
  | [] => [x]
  | y :: l' =>
      if String.leb (key x) (key y) then x :: y :: l'
      else y :: insert_by key x l'
  end.
Definition sorted_by (key : string → string) (l : list string) : list string :=
  foldr (insert_by key) [] l.
Definition sorted (l : list string) : list string := sorted_by id l.

(** [l.index(x)]: the first position of [x], if any. *)
Fixpoint index (l : list string) (x : string) : option nat :=
  match l with
  | [] => None
  | y :: l' => if decide (y = x) then Some 0 else S <$> index l' x
  end.

End Py.

Local Close Scope char_scope.

(** The interface of the letter-case methods of [str], which follow the
    Unicode tables of the Python runtime. *)
Class StrCase := {
  lower : string → string;
  upper : string → string;
  capitalize : string → string;
  casefold : string → string
}.

(** The ASCII instance: letters [A-Z] and [a-z] only. *)
Module AsciiCase.
Definition is_upper (c : ascii) : bool :=
  let n := nat_of_ascii c in (65 <=? n)%nat && (n <=? 90)%nat.
Definition is_lower (c : ascii) : bool :=
  let n := nat_of_ascii c in (97 <=? n)%nat && (n <=? 122)%nat.
Definition to_lower (c : ascii) : ascii :=
  if is_upper c then ascii_of_nat (nat_of_ascii c + 32) else c.
Definition to_upper (c : ascii) : ascii :=
  if is_lower c then ascii_of_nat (nat_of_ascii c - 32) else c.
Fixpoint map_chars (f : ascii → ascii) (s : string) : string :=
  match s with
  | EmptyString => EmptyString
  | String c s' => String (f c) (map_chars f s')
  end.
Definition capitalize_first (s : string) : string :=
  match s with
  | EmptyString => EmptyString
  | String c s' => String (to_upper c) (map_chars to_lower s')
  end.
Definition instance : StrCase :=
  {| lower := map_chars to_lower;
     upper := map_chars to_upper;
     capitalize := capitalize_first;
     casefold := map_chars to_lower |}.
End AsciiCase.

(** ** Errors

    One constructor per [raise] site (the message of the [Exception]), and
    the errors of the list operations of the runtime. *)
Inductive error :=
| README_description_parse_failure
| README_Relevant_API_parse_failure
| README_Tags_parse_failure
| Folder_name_incorrect (folder_name : string)
| ValueError_not_in_list (x : string)
| IndexError_list_index_out_of_range
| Empty_Relevant_APIs
| API_should_not_include_backticks
| Empty_line_in_APIs
| Duplicate_APIs
| APIs_are_not_sorted
| Empty_tags
| Wrong_letter_case_for_tag (t : string)
| Empty_char_in_tags
| Extra_whitespaces_in_tags
| Duplicate_tags
| Tags_are_not_sorted
| Unexpected_header (sets_diff : gset string)
| Missing_essential_headers (sets_diff : gset string)
| Wrong_order_at (header : string)
| Unable_to_get_swift_source_code_paths
| Unable_to_get_images_paths
| Error_inconsistent_metadata (path expected actual : string)
| Missing_category
| Invalid_category (category : string)
| At_path (folder_path : string) (err : error).

Inductive result (A : Type) :=
| OK (a : A)
| Error (e : error).
Arguments OK {A} a.
Arguments Error {A} e.

#[global] Instance result_ret : MRet result := λ A a, OK a.
#[global] Instance result_bind : MBind result := λ A B f m,
  match m with
  | OK a => f a
  | Error e => Error e
  end.

Definition is_OK {A} (r : result A) : bool :=
  match r with OK _ => true | Error _ => false end.

(** [l.index(x)], raising [ValueError]. *)
Definition list_index (l : list string) (x : string) : result nat :=
  match Py.index l x with
  | Some i => OK i
  | None => Error (ValueError_not_in_list x)
  end.

(** [l[i]] for a non-negative [i], raising [IndexError]. *)
Definition getitem (l : list string) (i : nat) : result string :=
  match l !! i with
  | Some x => OK x
  | None => Error IndexError_list_index_out_of_range
  end.

(** ** Global sets *)

Definition exception_proper_nouns : gset string :=
  {[ "Arcade"; "ArcGIS Online"; "ArcGIS Pro"; "GeoPackage"; "OAuth";
     "OpenStreetMap"; "SwiftUI"; "Web Mercator" ]}.

Definition categories : gset string :=
  {[ "Analysis"; "Augmented Reality"; "Cloud and Portal";
     "Edit and Manage Data"; "Layers"; "Maps"; "Scenes";
     "Routing and Logistics"; "Search and Query"; "Utility Networks";
     "Visualization" ]}.

(** ** Static functions *)

(** The character class [[@_!#$%^&*<>?|/\\}{~:]]. *)
Definition special_chars : string := "@_!#$%^&*<>?|/\}{~:".

Definition sub_special_char (s : string) : string :=
  Py.remove_chars (λ c, Py.mem c special_chars) s.

Definition parse_head (head_string : string) : result (string * string) :=
  let parts := Py.filter_nonempty (Py.splitlines head_string) in
  if (length parts <? 3)%nat then Error README_description_parse_failure
  else
    p0 ← getitem parts 0;
    p1 ← getitem parts 1;
    let title := Py.rstrip (Py.lstrip_chars "# " p0) in
    let description := Py.strip p1 in
    OK (title, description).

(** [api.lstrip('*- ').rstrip()]. *)
Definition strip_bullet (api : string) : string :=
  Py.rstrip (Py.lstrip_chars "*- " api).

Definition parse_apis (apis_string : string) : result (list string) :=
  let apis := Py.filter_nonempty (Py.splitlines apis_string) in
  match apis with
  | [] => Error README_Relevant_API_parse_failure
  | _ => OK (Py.sorted (strip_bullet <$> apis))
  end.

Definition parse_tags (tags_string : string) : result (list string) :=
  let tags := Py.split "," tags_string in
  match tags with
  | [] => Error README_Tags_parse_failure
  | _ => OK (Py.sorted (Py.strip <$> tags))
  end.

(** *** [get_readme_parts]

    The pattern of the section headers, compiled with [re.MULTILINE],
    matches at the start of the text or just after a line feed: exactly two
    pound marks, one whitespace character, and then the rest of the line
    (up to the next line feed), which is the captured group.
    [re.split] returns the text between the matches interleaved with the
    groups; [re.findall] returns the groups. *)
Inductive scan_mode :=
| InBody (at_line_start : bool)
| InHeader.

Fixpoint re_split_go (m : scan_mode) (cur : string) (s : string) : list string :=
  match s with
  | EmptyString =>
      match m with
      | InBody _ => [String.rev cur]
      | InHeader => [String.rev cur; EmptyString]
      end
  | String c s1 =>
      let continue :=
        re_split_go (InBody (Ascii.eqb c "010")) (String c cur) s1 in
      match m with
      | InHeader =>
          if Ascii.eqb c "010"
          then String.rev cur :: re_split_go (InBody true) (String c EmptyString) s1
          else re_split_go InHeader (String c cur) s1
      | InBody at_line_start =>
          if at_line_start && Ascii.eqb c "#" then
            match s1 with
            | String "#" (String w s3) =>
                if Py.isspace w
                then String.rev cur :: re_split_go InHeader EmptyString s3
                else continue
            | _ => continue
            end
          else continue
      end
  end.

Definition re_split (content : string) : list string :=
  re_split_go (InBody true) EmptyString content.

(** The groups are the entries of [re_split] at the odd positions. *)
Fixpoint odd_entries (l : list string) : list string :=
  match l with
  | _ :: h :: l' => h :: odd_entries l'
  | _ => []
  end.

Definition re_findall (content : string) : list string :=
  odd_entries (re_split content).

Definition get_readme_parts (content : string) : list string * list string :=
  let readme_parts := re_split content in
  let readme_headers := re_findall content in
  (readme_parts, readme_headers).

(** *** [check_apis] and [check_tags] *)

Definition check_apis `{StrCase} (apis_string : string) : result (gset string) :=
  let stripped := Py.strip apis_string in
  let apis := Py.splitlines stripped in
  match apis with
  | [] => Error Empty_Relevant_APIs
  | _ =>
      let stripped_apis := strip_bullet <$> apis in
      let s : gset string := list_to_set stripped_apis in
      if existsb (λ a, Py.contains a "`") stripped_apis
      then Error API_should_not_include_backticks
      else if bool_decide ("" ∈ s) then Error Empty_line_in_APIs
      else if bool_decide (size s < length apis)%nat then Error Duplicate_APIs
      else if bool_decide (stripped_apis ≠ Py.sorted_by casefold stripped_apis)
      then Error APIs_are_not_sorted
      else OK s
  end.

(** The letter-case test of one tag in the loop of [check_tags]. *)
Definition wrong_letter_case `{StrCase} (t : string) : bool :=
  bool_decide (lower t ≠ t) && bool_decide (upper t ≠ t)
  && bool_decide (capitalize t ≠ t)
  && bool_decide (t ∉ exception_proper_nouns).

Definition check_tags `{StrCase} (tags_string : string) : result (gset string) :=
  let tags := Py.split "," tags_string in
  match tags with
  | [] => Error Empty_tags
  | _ =>
      let stripped_tags := Py.strip <$> tags in
      let s : gset string := list_to_set stripped_tags in
      match List.find wrong_letter_case stripped_tags with
      | Some t => Error (Wrong_letter_case_for_tag t)
      | None =>
          if bool_decide ("" ∈ s) then Error Empty_char_in_tags
          else if bool_decide (Py.join ", " stripped_tags ≠ Py.strip tags_string)
          then Error Extra_whitespaces_in_tags
          else if bool_decide (size s < length tags)%nat then Error Duplicate_tags
          else if bool_decide (stripped_tags ≠ Py.sorted_by casefold stripped_tags)
          then Error Tags_are_not_sorted
          else OK s
      end
  end.

(** *** [check_is_subsequence]

    The function returns the Python value [True] for an empty [list_a] and
    an [int] otherwise. *)
Inductive int_or_bool :=
| PyTrue
| PyInt (n : nat).

(** The value as a number: [True == 1]. *)
Definition int_value (v : int_or_bool) : nat :=
  match v with
  | PyTrue => 1
  | PyInt n => n
  end.

(** The loop [for pb in range(len(list_b), 0, -1)]: [rev_b] holds
    [list_b[pb - 1]], [list_b[pb - 2]], ..., [list_b[0]]. *)
Fixpoint subsequence_loop (list_a : list string) (pa : nat) (rev_b : list string)
  : nat :=
  match rev_b with
  | [] => pa
  | b :: rev_b' =>
      if (pa =? 0)%nat then 0%nat
      else
        let pa' :=
          if bool_decide (list_a !! (pa - 1)%nat = Some b) then (pa - 1)%nat else pa in
        subsequence_loop list_a pa' rev_b'
  end.

Definition check_is_subsequence (list_a list_b : list string) : int_or_bool :=
  match list_a with
  | [] => PyTrue
  | _ => PyInt (subsequence_loop list_a (length list_a) (reverse list_b))
  end.

(** ** The platform interfaces *)

(** [os.path.normpath] and [os.path.splitext]. *)
Class OsPath := {
  normpath : string → string;
  splitext : string → string * string
}.

(** The values of a metadata file: strings, booleans and lists of strings. *)
Inductive json :=
| JString (s : string)
| JBool (b : bool)
| JList (l : list string).

(** [json.dumps(data, indent=4, sort_keys=True)] of a dictionary. *)
Class JsonDumps := {
  json_dumps : gmap string json → string
}.

Definition get_folder_name_from_path `{OsPath} (path : string) : string :=
  List.last (Py.split "/" (normpath path)) "".

(** ** The class [Metadata] *)

Record Metadata := {
  category : string;
  description : string;
  ignore : bool;
  images : list string;
  keywords : list string;
  redirect_from : list string;
  relevant_apis : list string;
  snippets : list string;
  title : string;
  offline_data : list string;
  folder_path : string;
  folder_name : string
}.

(** [Metadata(folder_path)]. *)
Definition Metadata_init `{OsPath} (path : string) : Metadata :=
  {| category := ""; description := ""; ignore := false; images := [];
     keywords := []; redirect_from := []; relevant_apis := []; snippets := [];
     title := ""; offline_data := [];
     folder_path := path; folder_name := get_folder_name_from_path path |}.

Definition set_readme_fields (self : Metadata)
    (new_title new_description : string) (apis kws : list string) : Metadata :=
  {| category := category self; description := new_description;
     ignore := ignore self; images := images self; keywords := kws;
     redirect_from := redirect_from self; relevant_apis := apis;
     snippets := snippets self; title := new_title;
     offline_data := offline_data self;
     folder_path := folder_path self; folder_name := folder_name self |}.

Definition set_paths_fields (self : Metadata) (imgs snips : list string)
  : Metadata :=
  {| category := category self; description := description self;
     ignore := ignore self; images := imgs; keywords := keywords self;
     redirect_from := redirect_from self; relevant_apis := relevant_apis self;
     snippets := snips; title := title self;
     offline_data := offline_data self;
     folder_path := folder_path self; folder_name := folder_name self |}.

Definition get_source_code_paths `{OsPath} (listdir : list string)
  : result (list string) :=
  let results :=
    List.filter (λ file, bool_decide ((splitext file).2 ∈ [".swift"])) listdir in
  match results with
  | [] => Error Unable_to_get_swift_source_code_paths
  | _ => OK (Py.sorted results)
  end.

Definition get_images_paths `{OsPath} `{StrCase} (listdir : list string)
  : result (list string) :=
  let results :=
    List.filter
      (λ file, bool_decide (lower (splitext file).2 ∈ [".png"; ".gif"])) listdir in
  match results with
  | [] => Error Unable_to_get_images_paths
  | _ => OK (Py.sorted results)
  end.

(** [populate_from_readme], on the text read from the README file.  An
    exception leaves the method at once and [run_check] does not use the
    object after it, so the result is either the populated record or the
    error; the messages printed on the way are left out. *)
Definition populate_from_readme (self : Metadata) (readme_content : string)
  : result Metadata :=
  let '(readme_parts, _) := get_readme_parts readme_content in
  api_index ← list_index readme_parts "Relevant API";
  let api_section_index := (api_index + 1)%nat in
  tags_index ← list_index readme_parts "Tags";
  let tags_section_index := (tags_index + 1)%nat in
  head ← getitem readme_parts 0;
  '(new_title, new_description) ← parse_head head;
  if bool_decide (new_title ≠ folder_name self)
  then Error (Folder_name_incorrect (folder_name self))
  else
    api_section ← getitem readme_parts api_section_index;
    apis ← parse_apis api_section;
    tags_section ← getitem readme_parts tags_section_index;
    kws ← parse_tags tags_section;
    let kws := List.filter (λ w, bool_decide (w ∉ apis)) kws in
    OK (set_readme_fields self new_title new_description apis (kws ++ apis)).

(** [populate_from_paths], on the listing of the sample folder. *)
Definition populate_from_paths `{OsPath} `{StrCase}
    (self : Metadata) (listdir : list string) : result Metadata :=
  imgs ← get_images_paths listdir;
  snips ← get_source_code_paths listdir;
  OK (set_paths_fields self imgs snips).

Definition flush_data (self : Metadata) : gmap string json :=
  let data : gmap string json :=
    <["title" := JString (title self)]>
    (<["snippets" := JList (snippets self)]>
    (<["relevant_apis" := JList (relevant_apis self)]>
    (<["redirect_from" := JList (redirect_from self)]>
    (<["keywords" := JList (keywords self)]>
    (<["images" := JList (images self)]>
    (<["ignore" := JBool (ignore self)]>
    (<["description" := JString (description self)]>
    (<["category" := JString (category self)]> ∅)))))))) in
  match offline_data self with
  | [] => data
  | _ => <["offline_data" := JList (offline_data self)]> data
  end.

Definition flush_to_json_string `{JsonDumps} (self : Metadata) : string :=
  json_dumps (flush_data self).

Definition check_category (self : Metadata) : result unit :=
  if negb (Py.truthy (category self)) then Error Missing_category
  else if bool_decide (category self ∉ categories)
  then Error (Invalid_category (category self))
  else OK ().

(** ** The class [Readme] *)

Definition essential_headers : gset string :=
  {[ "Use case"; "How to use the sample"; "How it works"; "Relevant API";
     "Tags" ]}.

Definition available_headers : list string :=
  [ "Use case"; "How to use the sample"; "How it works"; "Relevant API";
    "Offline data"; "About the data"; "Additional information"; "Tags" ].

(** [check_format_heading], on the field [readme_headers]. *)
Definition check_format_heading (readme_headers : list string) : result unit :=
  let header_set : gset string := list_to_set readme_headers in
  let possible_header_set : gset string := list_to_set available_headers in
  let sets_diff := header_set ∖ possible_header_set in
  if bool_decide (sets_diff ≠ ∅) then Error (Unexpected_header sets_diff)
  else
    let sets_diff := essential_headers ∖ header_set in
    if bool_decide (sets_diff ≠ ∅) then Error (Missing_essential_headers sets_diff)
    else
      let i := int_value (check_is_subsequence readme_headers available_headers) in
      if bool_decide (i ≠ 0%nat) then
        header ← getitem readme_headers (i - 1);
        Error (Wrong_order_at header)
      else OK ().

(** ** [run_check] of the metadata checker *)

(** The record loaded from [README.metadata.json], as its schema has it;
    [p_offline_data] is [None] when the key is absent. *)
Record persisted := {
  p_category : string;
  p_description : string;
  p_ignore : bool;
  p_images : list string;
  p_keywords : list string;
  p_redirect_from : list string;
  p_relevant_apis : list string;
  p_snippets : list string;
  p_title : string;
  p_offline_data : option (list string)
}.

(** The dictionary [json_data]. *)
Definition json_data_dict (json_data : persisted) : gmap string json :=
  let data : gmap string json :=
    <["title" := JString (p_title json_data)]>
    (<["snippets" := JList (p_snippets json_data)]>
    (<["relevant_apis" := JList (p_relevant_apis json_data)]>
    (<["redirect_from" := JList (p_redirect_from json_data)]>
    (<["keywords" := JList (p_keywords json_data)]>
    (<["images" := JList (p_images json_data)]>
    (<["ignore" := JBool (p_ignore json_data)]>
    (<["description" := JString (p_description json_data)]>
    (<["category" := JString (p_category json_data)]> ∅)))))))) in
  match p_offline_data json_data with
  | None => data
  | Some l => <["offline_data" := JList l]> data
  end.

(** The special rules of [run_check], applied to [checker] in the order of
    the source: category, redirect_from, offline_data, description,
    snippets. *)
Definition special_rules (checker : Metadata) (json_data : persisted) : Metadata :=
  let new_category := p_category json_data in
  let new_redirect_from := p_redirect_from json_data in
  let new_offline_data :=
    match p_offline_data json_data with
    | Some l => l
    | None => offline_data checker
    end in
  let new_description :=
    if Py.contains (sub_special_char (description checker)) (p_description json_data)
    then p_description json_data
    else description checker in
  let new_snippets :=
    if bool_decide (Py.sorted (p_snippets json_data) = snippets checker)
    then p_snippets json_data
    else snippets checker in
  {| category := new_category; description := new_description;
     ignore := ignore checker; images := images checker;
     keywords := keywords checker; redirect_from := new_redirect_from;
     relevant_apis := relevant_apis checker; snippets := new_snippets;
     title := title checker; offline_data := new_offline_data;
     folder_path := folder_path checker; folder_name := folder_name checker |}.

(** The comparison of the generated JSON with the source JSON, and the
    check of the category. *)
Definition compare_and_check `{JsonDumps}
    (path : string) (checker : Metadata) (json_data : persisted) : result unit :=
  let new := flush_to_json_string checker in
  let original := json_dumps (json_data_dict json_data) in
  if bool_decide (new ≠ original)
  then Error (Error_inconsistent_metadata path new original)
  else
    match check_category checker with
    | OK _ => OK ()
    | Error err => Error (At_path (folder_path checker) err)
    end.

(** [run_check(path)], on what it reads: the text of the README, the
    listing of the folder and the record of the metadata file. *)
Definition run_check `{OsPath} `{StrCase} `{JsonDumps}
    (path : string) (readme_content : string) (listdir : list string)
    (json_data : persisted) : result unit :=
  let checker := Metadata_init path in
  checker ← populate_from_readme checker readme_content;
  checker ← populate_from_paths checker listdir;
  let checker := special_rules checker json_data in
  compare_and_check path checker json_data.

(** ** The sentence case and the checks of the class [Readme] *)

(** [s.split()]: the runs of characters that are not whitespace; [cur] is
    the current word, reversed. *)
Fixpoint words_go (cur : string) (s : string) : list string :=
  match s with
  | EmptyString =>
      match cur with
      | EmptyString => []
      | _ => [String.rev cur]
      end
  | String c s' =>
      if Py.isspace c then
        match cur with
        | EmptyString => words_go EmptyString s'
        | _ => String.rev cur :: words_go EmptyString s'
        end
      else words_go (String c cur) s'
  end.

Definition words (s : string) : list string := words_go EmptyString s.

(** [s.strip(chars)]. *)
Definition strip_chars (chars s : string) : string :=
  Py.rstrip_by (λ c, Py.mem c chars) (Py.lstrip_chars chars s).

(** The errors of the checks of the README: those of the static functions
    of the parsers, those of [check_sentence_case], and the exceptions in
    which the methods of [Readme] wrap the error they catch. *)
Inductive check_error :=
| Raised (e : error)
| Empty_title_string
| Wrong_letter_case_for_the_first_word
| Wrong_letter_case_for_word (word : string)
| API_should_not_be_in_tags
| Error_title (err : check_error)
| Error_APIs (err : check_error)
| Error_tags (err : check_error)
| Error_checking_extra_tags (err : check_error).

Inductive checked (A : Type) :=
| Pass (a : A)
| Fail (e : check_error).
Arguments Pass {A} a.
Arguments Fail {A} e.

Definition passes {A} (c : checked A) : bool :=
  match c with Pass _ => true | Fail _ => false end.

(** The test of a word after the first one in [check_sentence_case]. *)
Definition wrong_word_case `{StrCase} (word : string) : bool :=
  bool_decide (lower word ≠ word) && bool_decide (upper word ≠ word)
  && bool_decide (word ∉ exception_proper_nouns).

Definition check_sentence_case `{StrCase} (s : string) : checked unit :=
  if negb (Py.truthy s) then Fail Empty_title_string
  else if bool_decide (s ∈ exception_proper_nouns) then Pass ()
  else
    match words s with
    | [] => Fail (Raised IndexError_list_index_out_of_range)
    | EmptyString :: _ => Fail (Raised IndexError_list_index_out_of_range)
    | (String c _ as word0) :: rest =>
        let first := String c EmptyString in
        if bool_decide (upper first ≠ first) && bool_decide (upper word0 ≠ word0)
           && bool_decide (word0 ∉ exception_proper_nouns)
        then Fail Wrong_letter_case_for_the_first_word
        else
          match List.find wrong_word_case (strip_chars "()" <$> rest) with
          | Some word => Fail (Wrong_letter_case_for_word word)
          | None => Pass ()
          end
    end.


Definition check_format_title_section `{StrCase} (readme_parts : list string)
  : checked unit :=
  match (head ← getitem readme_parts 0; parse_head head) with
  | Error e => Fail (Error_title (Raised e))
  | OK (new_title, _) =>
      match check_sentence_case new_title with
      | Pass _ => Pass ()
      | Fail e => Fail (Error_title e)
      end
  end.

Definition check_format_apis `{StrCase} (readme_parts : list string)
  : checked unit :=
  match (api_index ← list_index readme_parts "Relevant API";
         api_section ← getitem readme_parts (api_index + 1);
         check_apis api_section) with
  | Error e => Fail (Error_APIs (Raised e))
  | OK _ => Pass ()
  end.

Definition check_format_tags `{StrCase} (readme_parts : list string)
  : checked unit :=
  match (tags_index ← list_index readme_parts "Tags";
         tags_section ← getitem readme_parts (tags_index + 1);
         check_tags tags_section) with
  | Error e => Fail (Error_tags (Raised e))
  | OK _ => Pass ()
  end.

Definition check_redundant_apis_in_tags `{StrCase} (readme_parts : list string)
  : checked unit :=
  match (tags_index ← list_index readme_parts "Tags";
         api_index ← list_index readme_parts "Relevant API";
         api_section ← getitem readme_parts (api_index + 1);
         api_set ← check_apis api_section;
         tags_section ← getitem readme_parts (tags_index + 1);
         tag_set ← check_tags tags_section;
         OK (api_set, tag_set)) with
  | Error e => Fail (Error_checking_extra_tags (Raised e))
  | OK (api_set, tag_set) =>
      if bool_decide (api_set ## tag_set) then Pass ()
      else Fail (Error_checking_extra_tags API_should_not_be_in_tags)
  end.



(** ** The class [MetadataCreator] *)

(** [posixpath.join] of a folder and a relative file name. *)
Definition path_join (folder name : string) : string :=
  match String.rev folder with
  | EmptyString => name
  | String "/" _ => folder +:+ name
  | _ => folder +:+ "/" +:+ name
  end.

(** The override of [get_images_paths]: an empty result is returned too. *)
Definition creator_get_images_paths `{OsPath} `{StrCase} (listdir : list string)
  : list string :=
  Py.sorted
    (List.filter
       (λ file, bool_decide (lower (splitext file).2 ∈ [".png"; ".gif"])) listdir).

(** [populate_from_paths] on a [MetadataCreator]. *)
Definition creator_populate_from_paths `{OsPath} `{StrCase}
    (self : Metadata) (listdir : list string) : result Metadata :=
  let imgs := creator_get_images_paths listdir in
  snips ← get_source_code_paths listdir;
  OK (set_paths_fields self imgs snips).

(** [create_one_metadata(path)]: the path and the text of the file that is
    written, or [None] when the population fails and nothing is written. *)
Definition create_one_metadata `{OsPath} `{StrCase} `{JsonDumps}
    (path : string) (readme_content : string) (listdir : list string)
  : option (string * string) :=
  let creator := Metadata_init path in
  match (creator ← populate_from_readme creator readme_content;
         creator_populate_from_paths creator listdir) with
  | Error _ => None
  | OK creator =>
      Some (path_join path "new-README.metadata.json",
            json_dumps (flush_data creator) +:+ String "010" EmptyString)
  end.

(** ** Definitions of the statements and of the examples *)

(** The order of [sorted(l, key=key)]: the code-point order of the keys. *)
Definition key_le (key : string → string) (x y : string) : Prop :=
  String.le (key x) (key y).

(** The order of [sorted(l)]: the code-point order of the strings, in which
    every capital ASCII letter comes before every small one. *)
Definition code_point_le : relation string := key_le id.

(** [needle] occurs in [hay]. *)
Definition occurs_in (needle hay : string) : Prop :=
  ∃ pre post, hay = pre +:+ needle +:+ post.

(** The loop of [check_is_subsequence] read on the reversed lists: [rev_a]
    holds the elements of [list_a] not matched yet, the last one first. *)
Fixpoint unmatched (rev_a rev_b : list string) : nat :=
  match rev_b with
  | [] => length rev_a
  | b :: rev_b' =>
      match rev_a with
      | [] => 0%nat
      | a :: rev_a' =>
          if decide (a = b) then unmatched rev_a' rev_b' else unmatched rev_a rev_b'
      end
  end.

(** [name], after its leading spaces, is empty or begins with a character
    that is neither a pound mark nor whitespace. *)
Fixpoint plain_start (name : string) : bool :=
  match name with
  | EmptyString => true
  | String c name' =>
      if Ascii.eqb c " " then plain_start name'
      else negb (Ascii.eqb c "#") && negb (Py.isspace c)
  end.


(** The shape of the entries of [re_split] after the first one: a captured
    header, which has no line feed, and then the text up to the next header,
    which is empty or begins at the line feed that ends the header line. *)
Definition has_line_feed (s : string) : bool := Py.mem "010"%char s.

Definition body_like (b : string) : Prop := b = "" ∨ has_line_feed b = true.

Fixpoint sections_ok (l : list string) : Prop :=
  match l with
  | [] => True
  | [_] => False
  | h :: b :: l' => has_line_feed h = false ∧ body_like b ∧ sections_ok l'
  end.

(** The text before a match ends a line, or is empty. *)
Definition line_start (cur : string) : Prop :=
  cur = "" ∨ ∃ cur', cur = String "010" cur'.

(** The dictionary of the nine common keys and of the optional key
    [offline_data], the shape of both dictionaries that [run_check]
    serialises. *)
Definition metadata_dict
    (cat text : string) (ign : bool)
    (imgs kws redirects apis snips : list string) (name : string)
    (offline : option (list string)) : gmap string json :=
  let data : gmap string json :=
    <["title" := JString name]>
    (<["snippets" := JList snips]>
    (<["relevant_apis" := JList apis]>
    (<["redirect_from" := JList redirects]>
    (<["keywords" := JList kws]>
    (<["images" := JList imgs]>
    (<["ignore" := JBool ign]>
    (<["description" := JString text]>
    (<["category" := JString cat]> ∅)))))))) in
  match offline with
  | None => data
  | Some l => <["offline_data" := JList l]> data
  end.

(** The value that [flush_to_json_string] writes for [offline_data]. *)
Definition written_offline_data (l : list string) : option (list string) :=
  match l with
  | [] => None
  | _ => Some l
  end.

(** The line feed. *)
Definition nl : string := String "010" "".

(** The README of the examples: the title block of Example 1 of the
    specification, followed by the five essential sections. *)
Definition readme_display_map : string :=
  "# Display map" +:+ nl +:+ nl +:+
  "Display a map with an imagery basemap." +:+ nl +:+ nl +:+
  "![](image.png)" +:+ nl +:+ nl +:+
  "## Use case" +:+ nl +:+ nl +:+ "Visualize data." +:+ nl +:+ nl +:+
  "## How to use the sample" +:+ nl +:+ nl +:+ "Pan and zoom." +:+ nl +:+ nl +:+
  "## How it works" +:+ nl +:+ nl +:+ "1. Create a map." +:+ nl +:+ nl +:+
  "## Relevant API" +:+ nl +:+ nl +:+
  "* Map" +:+ nl +:+ "* MapView" +:+ nl +:+ nl +:+
  "## Tags" +:+ nl +:+ nl +:+
  "basemap, Map, visualization" +:+ nl.

(** A README with the title block and two sections, and no section of the
    tags. *)
Definition readme_without_tags : string :=
  "# Display map" +:+ nl +:+ nl +:+
  "Display a map with an imagery basemap." +:+ nl +:+ nl +:+
  "![](image.png)" +:+ nl +:+ nl +:+
  "## Use case" +:+ nl +:+ nl +:+ "Visualize data." +:+ nl +:+ nl +:+
  "## Relevant API" +:+ nl +:+ nl +:+
  "* Map" +:+ nl +:+ "* MapView" +:+ nl.

Definition sample (name : string) : Metadata :=
  {| category := ""; description := ""; ignore := false; images := [];
     keywords := []; redirect_from := []; relevant_apis := []; snippets := [];
     title := ""; offline_data := [];
     folder_path := "Shared/Samples/" +:+ name; folder_name := name |}.

(** The record derived for the sample of the examples, and a record of its
    metadata file with a given description and a given list of snippets. *)
Definition derived_display_map : Metadata :=
  set_paths_fields
    (set_readme_fields (sample "Display map") "Display map"
       "Display a map with an imagery basemap." ["Map"; "MapView"]
       ["basemap"; "visualization"; "Map"; "MapView"])
    ["image.png"] ["A.swift"; "B.swift"].

Definition persisted_display_map (text : string) (snips : list string)
  : persisted :=
  {| p_category := "Maps"; p_description := text; p_ignore := false;
     p_images := ["image.png"];
     p_keywords := ["basemap"; "visualization"; "Map"; "MapView"];
     p_redirect_from := []; p_relevant_apis := ["Map"; "MapView"];
     p_snippets := snips; p_title := "Display map";
     p_offline_data := None |}.

(** Instances of the platform interfaces to run the examples: the paths of
    the examples are in normal form, and their texts need no escape in a
    JSON string. *)
Module PosixExample.
(** The text before and after the first occurrence of [c]. *)
Fixpoint split_at_first (c : ascii) (before s : string) : option (string * string) :=
  match s with
  | EmptyString => None
  | String d s' =>
      if Ascii.eqb d c then Some (String.rev before, s')
      else split_at_first c (String d before) s'
  end.

Definition only_dots (s : string) : bool :=
  match Py.lstrip_by (λ c, Ascii.eqb c ".") s with
  | EmptyString => true
  | _ => false
  end.

(** [posixpath.splitext], read on the reversed path. *)
Definition posix_splitext (p : string) : string * string :=
  match split_at_first "." "" (String.rev p) with
  | None => (p, "")
  | Some (rev_ext, rev_root) =>
      if Py.mem "/" rev_ext then (p, "")
      else
        let rev_name :=
          match split_at_first "/" "" rev_root with
          | Some (rev_name, _) => rev_name
          | None => rev_root
          end in
        if only_dots rev_name then (p, "")
        else (String.rev rev_root, String "." (String.rev rev_ext))
  end.

Definition os_path : OsPath := {| normpath := id; splitext := posix_splitext |}.
End PosixExample.

Module JsonExample.
Definition quote (s : string) : string :=
  String "034" (s +:+ String "034" "").

Definition render_value (v : json) : string :=
  match v with
  | JString s => quote s
  | JBool true => "true"
  | JBool false => "false"
  | JList [] => "[]"
  | JList l =>
      "[" +:+ nl
      +:+ Py.join ("," +:+ nl) ((λ x, "        " +:+ quote x) <$> l)
      +:+ nl +:+ "    ]"
  end.

Definition render_item (data : gmap string json) (k : string) : string :=
  "    " +:+ quote k +:+ ": "
  +:+ match data !! k with
      | Some v => render_value v
      | None => "null"
      end.

Definition render (data : gmap string json) : string :=
  match Py.sorted (elements (dom data)) with
  | [] => "{}"
  | keys =>
      "{" +:+ nl +:+ Py.join ("," +:+ nl) (render_item data <$> keys)
      +:+ nl +:+ "}"
  end.

Definition dumps : JsonDumps := {| json_dumps := render |}.
End JsonExample.

Ltac solve_elem_of_list :=
  lazy; repeat first [apply list_elem_of_here | apply list_elem_of_further].

(** * Properties *)

(** ** The sort *)

Section sorted_by_facts.
Variable key : string → string.

Lemma key_le_trans x y z : key_le key x y → key_le key y z → key_le key x z.
Proof. unfold key_le. intros Hxy Hyz. by etrans. Qed.

Lemma key_le_of_not_leb x y : String.leb (key x) (key y) = false → key_le key y x.
Proof.
  intros Hf. unfold key_le.
  destruct (total String.le (key y) (key x)) as [Hle | Hle]; [done |].
  unfold String.le in Hle. rewrite Hf in Hle. done.
Qed.

Lemma insert_by_Permutation x l : Py.insert_by key x l ≡ₚ x :: l.
Proof.
  induction l as [| y l IH]; simpl; [done |].
  destruct (String.leb (key x) (key y)); [done |].
  rewrite IH. apply Permutation_swap.
Qed.

Lemma sorted_by_Permutation l : Py.sorted_by key l ≡ₚ l.
Proof.
  induction l as [| x l IH]; simpl; [done |].
  rewrite insert_by_Permutation. by f_equiv.
Qed.

Lemma insert_by_StronglySorted x l :
  StronglySorted (key_le key) l → StronglySorted (key_le key) (Py.insert_by key x l).
Proof.
  induction 1 as [| y l Hl IH Hy]; simpl.
  - repeat constructor.
  - destruct (String.leb (key x) (key y)) eqn:Hxy.
    + constructor; [by constructor |].
      assert (key_le key x y) as Hle by (unfold key_le, String.le; by rewrite Hxy).
      constructor; [done |].
      eapply Forall_impl; [exact Hy |]. intros z Hz. by eapply key_le_trans.
    + constructor; [done |].
      rewrite insert_by_Permutation. constructor; [| done].
      by apply key_le_of_not_leb.
Qed.

Lemma sorted_by_StronglySorted l : StronglySorted (key_le key) (Py.sorted_by key l).
Proof.
  induction l as [| x l IH]; simpl; [constructor |].
  by apply insert_by_StronglySorted.
Qed.
End sorted_by_facts.

(** ** Strings *)

Lemma startswith_spec hay needle :
  Py.startswith hay needle = true ↔ ∃ post, hay = needle +:+ post.
Proof.
  revert hay. induction needle as [| a needle IH]; intros hay; simpl.
  - split; [intros _; by exists hay | done].
  - destruct hay as [| b hay].
    + split; [done | intros [post Hp]; discriminate].
    + rewrite andb_true_iff, IH, Ascii.eqb_eq. split.
      * intros [-> [post ->]]. by exists post.
      * intros [post Hp]. injection Hp as -> ->. eauto.
Qed.

Lemma occurs_in_refl s : occurs_in s s.
Proof.
  exists "", "". change (s = s +:+ "").
  induction s as [| c s IH]; [done |].
  change (String c s = String c (s +:+ "")). by f_equal.
Qed.

Lemma contains_spec hay needle :
  Py.contains hay needle = true ↔ occurs_in needle hay.
Proof.
  unfold occurs_in. induction hay as [| c hay IH].
  - simpl. rewrite orb_false_r, startswith_spec. split.
    + intros [post Hp]. by exists "", post.
    + intros ([| ? pre] & post & Hp); [by exists post | discriminate].
  - cbn [Py.contains]. rewrite orb_true_iff, IH, startswith_spec. split.
    + intros [[post Hp] | (pre & post & Hp)].
      * by exists "", post.
      * exists (String c pre), post. by rewrite Hp.
    + intros ([| d pre] & post & Hp).
      * left. by exists post.
      * right. injection Hp as -> ->. by exists pre, post.
Qed.

Lemma split_go_nonempty sep cur s : Py.split_go sep cur s ≠ [].
Proof.
  revert cur. induction s as [| c s IH]; intros cur; simpl; [done |].
  destruct (Ascii.eqb c sep); [done | apply IH].
Qed.

Lemma split_nonempty sep s : Py.split sep s ≠ [].
Proof. apply split_go_nonempty. Qed.

(** ** The subsequence check *)

Lemma subsequence_loop_unmatched list_a pa rev_b :
  (pa ≤ length list_a)%nat →
  subsequence_loop list_a pa rev_b = unmatched (reverse (take pa list_a)) rev_b.
Proof.
  revert pa. induction rev_b as [| b rev_b IH]; intros pa Hpa; simpl.
  - rewrite length_reverse, length_take. lia.
  - destruct pa as [| k]; simpl; [done |].
    rewrite Nat.sub_0_r.
    destruct (lookup_lt_is_Some_2 list_a k) as [x Hx]; [lia |].
    rewrite (take_S_r _ _ _ Hx), reverse_snoc, Hx.
    destruct (decide (x = b)) as [-> | Hne].
    + rewrite bool_decide_eq_true_2 by done. apply IH. lia.
    + rewrite bool_decide_eq_false_2 by congruence.
      rewrite IH by done. by rewrite (take_S_r _ _ _ Hx), reverse_snoc.
Qed.

Lemma sublist_cons_cons (x : string) l k :
  sublist (x :: l) (x :: k) ↔ sublist l k.
Proof.
  split; [| by constructor].
  intros H. apply sublist_cons_r in H as [H | (l' & Heq & H)].
  - etrans; [| exact H]. by constructor.
  - by injection Heq as ->.
Qed.

Lemma unmatched_zero rev_a rev_b :
  unmatched rev_a rev_b = 0%nat ↔ sublist rev_a rev_b.
Proof.
  revert rev_a. induction rev_b as [| b rev_b IH]; intros rev_a; simpl.
  - rewrite sublist_nil_r. by destruct rev_a.
  - destruct rev_a as [| a rev_a]; [split; [intros _; apply sublist_nil_l | done] |].
    destruct (decide (a = b)) as [-> | Hne].
    + by rewrite IH, sublist_cons_cons.
    + rewrite IH, (sublist_cons_r b). split; [auto |].
      intros [H | (l' & Heq & _)]; [done | congruence].
Qed.

Lemma sublist_reverse (l k : list string) :
  sublist (reverse l) (reverse k) ↔ sublist l k.
Proof.
  assert (∀ l k : list string, sublist l k → sublist (reverse l) (reverse k)) as Hrev.
  { induction 1 as [| x l1 l2 _ IH | x l1 l2 _ IH]; [constructor | |].
    - rewrite !reverse_cons. by apply sublist_app.
    - rewrite reverse_cons. by apply sublist_inserts_r. }
  split; [| apply Hrev].
  intros H%Hrev. by rewrite !reverse_involutive in H.
Qed.

(** For a non-empty [list_a] the result is the integer zero exactly when
    [list_a] is a subsequence of [list_b]. *)
Lemma check_is_subsequence_nonempty list_a list_b :
  list_a ≠ [] →
  ∃ n, check_is_subsequence list_a list_b = PyInt n
       ∧ (n = 0%nat ↔ sublist list_a list_b)
       ∧ n = unmatched (reverse list_a) (reverse list_b).
Proof.
  intros Hne. destruct list_a as [| a list_a]; [done |].
  unfold check_is_subsequence.
  eexists; split; [done |].
  rewrite subsequence_loop_unmatched by done.
  rewrite firstn_all. split; [| done].
  by rewrite unmatched_zero, sublist_reverse.
Qed.

Lemma unmatched_le rev_a rev_b : (unmatched rev_a rev_b ≤ length rev_a)%nat.
Proof.
  revert rev_a. induction rev_b as [| b rev_b IH]; intros rev_a; simpl; [done |].
  destruct rev_a as [| a rev_a]; [done |].
  destruct (decide (a = b)).
  - etrans; [apply IH | simpl; lia].
  - apply IH.
Qed.

(** C3. The docstring of [check_is_subsequence] promises 0 when [list_a] is
    a subsequence of [list_b], and its comment says that the empty list
    always is one; for the empty [list_a] the code returns [True], which is
    not zero: as a number it is 1, and the test [i != 0] of the caller
    holds on it. *)
Theorem check_is_subsequence_empty_returns_True list_b :
  check_is_subsequence [] list_b = PyTrue
  ∧ check_is_subsequence [] list_b ≠ PyInt 0
  ∧ int_value (check_is_subsequence [] list_b) = 1%nat.
Proof. done. Qed.

(** C4. [str.split] never returns an empty list, so the guard of
    [parse_tags] is dead: on the empty section the function returns the
    list that holds the empty string, and it raises on no input. *)
Theorem parse_tags_empty_section_returns :
  parse_tags "" = OK [""]
  ∧ ∀ tags_string,
      parse_tags tags_string
      = OK (Py.sorted (Py.strip <$> Py.split "," tags_string)).
Proof.
  split; [done |]. intros tags_string. unfold parse_tags.
  pose proof (split_nonempty "," tags_string) as Hne.
  by destruct (Py.split "," tags_string).
Qed.

(** ** The header check *)

Lemma available_headers_NoDup : NoDup available_headers.
Proof. refine (bool_decide_unpack _ _). by vm_compute. Qed.

(** C8. A list of headers that holds a header more than once is rejected
    by [check_format_heading]: by one of the two checks on the sets, or
    else by the check of the order, with the error that names one of the
    headers of the list. *)
Theorem check_format_heading_rejects_repeated readme_headers :
  ¬ NoDup readme_headers →
  (∃ sets_diff, check_format_heading readme_headers
                = Error (Unexpected_header sets_diff))
  ∨ (∃ sets_diff, check_format_heading readme_headers
                  = Error (Missing_essential_headers sets_diff))
  ∨ (∃ header, header ∈ readme_headers
               ∧ check_format_heading readme_headers
                 = Error (Wrong_order_at header)).
Proof.
  intros Hdup. unfold check_format_heading.
  case_bool_decide; [left; eauto |].
  case_bool_decide; [right; left; eauto |].
  right; right.
  destruct (check_is_subsequence_nonempty readme_headers available_headers)
    as (n & -> & Hzero & Hn).
  { intros ->. apply Hdup. constructor. }
  simpl. case_bool_decide as Hnz.
  - assert (n - 1 < length readme_headers)%nat as Hlt.
    { pose proof (unmatched_le (reverse readme_headers) (reverse available_headers)).
      rewrite length_reverse in *. lia. }
    apply lookup_lt_is_Some_2 in Hlt as [header Hh].
    exists header. split; [by eapply list_elem_of_lookup_2 |].
    unfold getitem. by rewrite Hh.
  - exfalso. apply Hdup.
    eapply sublist_NoDup; [apply available_headers_NoDup |].
    apply Hzero. lia.
Qed.

Lemma check_format_heading_rejects_repeated_witness :
  ∃ header,
    check_format_heading
      ["Use case"; "Use case"; "How to use the sample"; "How it works";
       "Relevant API"; "Tags"]
    = Error (Wrong_order_at header).
Proof.
  destruct (check_format_heading_rejects_repeated
              ["Use case"; "Use case"; "How to use the sample"; "How it works";
               "Relevant API"; "Tags"]) as [[d H] | [[d H] | [h [_ H]]]].
  - intros Hnd. apply NoDup_cons in Hnd as [Hnin _].
    apply Hnin. apply list_elem_of_here.
  - vm_compute in H. discriminate H.
  - vm_compute in H. discriminate H.
  - exists h. exact H.
Defined.

(** ** The derivation from the README *)

Lemma index_lookup l x i : Py.index l x = Some i → l !! i = Some x.
Proof.
  revert i. induction l as [| y l IH]; intros i; simpl; [done |].
  destruct (decide (y = x)) as [-> | Hne].
  - by intros [= <-].
  - destruct (Py.index l x) as [k |]; simpl; [| done].
    intros [= <-]. by apply IH.
Qed.

Lemma index_elem_of l x : x ∈ l → ∃ i, Py.index l x = Some i.
Proof.
  induction 1 as [x l | x y l _ [i Hi]]; simpl.
  - rewrite decide_True by done. eauto.
  - destruct (decide (y = x)); [eauto |]. rewrite Hi. simpl. eauto.
Qed.

Lemma index_None_not_elem_of l x : Py.index l x = None → x ∉ l.
Proof.
  intros Hnone [i Hi]%index_elem_of. congruence.
Qed.

(** The comparison of the title: once the two sections are located and the
    title block is parsed, [populate_from_readme] raises the folder-name
    error whenever the derived title differs from the name of the folder;
    when they are equal it goes on with the sections of the APIs and of the
    tags, and every record it returns has the name of the folder as its
    title. *)
Lemma populate_from_readme_folder_name
    self readme_content head new_title new_description :
  let readme_parts := (get_readme_parts readme_content).1 in
  "Relevant API" ∈ readme_parts →
  "Tags" ∈ readme_parts →
  readme_parts !! 0%nat = Some head →
  parse_head head = OK (new_title, new_description) →
  (new_title ≠ folder_name self →
   populate_from_readme self readme_content
   = Error (Folder_name_incorrect (folder_name self)))
  ∧ (new_title = folder_name self →
     (∃ api_index tags_index,
        Py.index readme_parts "Relevant API" = Some api_index
        ∧ Py.index readme_parts "Tags" = Some tags_index
        ∧ populate_from_readme self readme_content
          = (api_section ← getitem readme_parts (api_index + 1);
             apis ← parse_apis api_section;
             tags_section ← getitem readme_parts (tags_index + 1);
             kws ← parse_tags tags_section;
             OK (set_readme_fields self (folder_name self) new_description apis
                   (List.filter (λ w, bool_decide (w ∉ apis)) kws ++ apis))))
     ∧ ∀ m, populate_from_readme self readme_content = OK m →
            title m = folder_name self).
Proof.
  intros readme_parts [i Hi]%index_elem_of [j Hj]%index_elem_of Hhead Hparse.
  unfold populate_from_readme, get_readme_parts in *.
  simpl in readme_parts. subst readme_parts.
  unfold list_index. rewrite Hi, Hj. simpl.
  assert (getitem (re_split readme_content) 0 = OK head) as ->.
  { unfold getitem. by rewrite Hhead. }
  simpl. rewrite Hparse. simpl.
  split; intros Ht.
  - by rewrite bool_decide_eq_true_2.
  - rewrite bool_decide_eq_false_2 by (by intros ?). subst new_title.
    split; [by exists i, j |].
    intros m Hm.
    destruct (getitem _ (i + 1)); simpl in Hm; [| done].
    destruct (parse_apis _); simpl in Hm; [| done].
    destruct (getitem _ (j + 1)); simpl in Hm; [| done].
    destruct (parse_tags _); simpl in Hm; [| done].
    by injection Hm as <-.
Qed.

Lemma populate_from_readme_folder_name_witness :
  populate_from_readme (sample "Display Map") readme_display_map
  = Error (Folder_name_incorrect "Display Map").
Proof.
  refine (proj1 (populate_from_readme_folder_name
                   (sample "Display Map") readme_display_map
                   _ "Display map" "Display a map with an imagery basemap."
                   _ _ _ _) _).
  - solve_elem_of_list.
  - solve_elem_of_list.
  - lazy. reflexivity.
  - lazy. reflexivity.
  - lazy. discriminate.
Defined.

Lemma index_not_elem_of l x : x ∉ l → Py.index l x = None.
Proof.
  intros Hnin. destruct (Py.index l x) as [i |] eqn:Hi; [| done].
  destruct Hnin. eapply list_elem_of_lookup_2. by apply index_lookup.
Qed.

(** C5, as stated, fails: the two sections are looked up before the title
    is compared, so a README without the section of the tags raises the
    [ValueError] of the lookup, although the title of its title block
    differs from the name of the folder. *)
Lemma populate_from_readme_missing_section_first :
  (head ← getitem (get_readme_parts readme_without_tags).1 0; parse_head head)
  = OK ("Display map", "Display a map with an imagery basemap.")
  ∧ "Display map" ≠ folder_name (sample "Display Map")
  ∧ populate_from_readme (sample "Display Map") readme_without_tags
    = Error (ValueError_not_in_list "Tags")
  ∧ populate_from_readme (sample "Display Map") readme_without_tags
    ≠ Error (Folder_name_incorrect "Display Map").
Proof.
  split_and!.
  - lazy. reflexivity.
  - lazy. discriminate.
  - lazy. reflexivity.
  - lazy. discriminate.
Qed.

(** C5, amended. [populate_from_readme] first looks up the section of the
    APIs and then that of the tags, and raises the [ValueError] of the
    lookup when one is missing, whatever the title. When both are found
    and the title block is parsed, it raises the folder-name error whenever
    the derived title differs from the name of the folder; when they are
    equal it goes on with the two sections, and every record it returns has
    the name of the folder as its title. *)
Theorem populate_from_readme_sections_then_title self readme_content :
  let readme_parts := (get_readme_parts readme_content).1 in
  ("Relevant API" ∉ readme_parts →
   populate_from_readme self readme_content
   = Error (ValueError_not_in_list "Relevant API"))
  ∧ ("Relevant API" ∈ readme_parts → "Tags" ∉ readme_parts →
     populate_from_readme self readme_content
     = Error (ValueError_not_in_list "Tags"))
  ∧ (∀ head new_title new_description,
       "Relevant API" ∈ readme_parts →
       "Tags" ∈ readme_parts →
       readme_parts !! 0%nat = Some head →
       parse_head head = OK (new_title, new_description) →
       (new_title ≠ folder_name self →
        populate_from_readme self readme_content
        = Error (Folder_name_incorrect (folder_name self)))
       ∧ (new_title = folder_name self →
          (∃ api_index tags_index,
             Py.index readme_parts "Relevant API" = Some api_index
             ∧ Py.index readme_parts "Tags" = Some tags_index
             ∧ populate_from_readme self readme_content
               = (api_section ← getitem readme_parts (api_index + 1);
                  apis ← parse_apis api_section;
                  tags_section ← getitem readme_parts (tags_index + 1);
                  kws ← parse_tags tags_section;
                  OK (set_readme_fields self (folder_name self) new_description
                        apis
                        (List.filter (λ w, bool_decide (w ∉ apis)) kws ++ apis))))
          ∧ ∀ m, populate_from_readme self readme_content = OK m →
                 title m = folder_name self)).
Proof.
  intros readme_parts. split_and!.
  - intros Hapi%index_not_elem_of.
    unfold populate_from_readme, list_index. subst readme_parts.
    unfold get_readme_parts in *. simpl in *. by rewrite Hapi.
  - intros [i Hi]%index_elem_of Htags%index_not_elem_of.
    unfold populate_from_readme, list_index. subst readme_parts.
    unfold get_readme_parts in *. simpl in *. by rewrite Hi, Htags.
  - intros head new_title new_description.
    apply populate_from_readme_folder_name.
Qed.

Lemma populate_from_readme_sections_then_title_witness :
  populate_from_readme (sample "Display Map") readme_without_tags
  = Error (ValueError_not_in_list "Tags")
  ∧ populate_from_readme (sample "Display Map") readme_display_map
    = Error (Folder_name_incorrect "Display Map").
Proof.
  split.
  - apply (proj1 (proj2 (populate_from_readme_sections_then_title
                           (sample "Display Map") readme_without_tags))).
    + solve_elem_of_list.
    + lazy. intros Hin.
      repeat (apply elem_of_cons in Hin as [Hin | Hin]; [discriminate Hin |]).
      by apply not_elem_of_nil in Hin.
  - refine (proj1 (proj2 (proj2 (populate_from_readme_sections_then_title
                                   (sample "Display Map") readme_display_map))
                     _ "Display map" "Display a map with an imagery basemap."
                     _ _ _ _) _).
    + solve_elem_of_list.
    + solve_elem_of_list.
    + lazy. reflexivity.
    + lazy. reflexivity.
    + lazy. discriminate.
Defined.

(** What a successful [populate_from_readme] has computed. *)
Lemma populate_from_readme_OK self readme_content m :
  populate_from_readme self readme_content = OK m →
  let readme_parts := (get_readme_parts readme_content).1 in
  ∃ api_index tags_index head new_description api_section apis tags_section tags,
    Py.index readme_parts "Relevant API" = Some api_index
    ∧ Py.index readme_parts "Tags" = Some tags_index
    ∧ readme_parts !! 0%nat = Some head
    ∧ parse_head head = OK (folder_name self, new_description)
    ∧ readme_parts !! (api_index + 1)%nat = Some api_section
    ∧ parse_apis api_section = OK apis
    ∧ readme_parts !! (tags_index + 1)%nat = Some tags_section
    ∧ parse_tags tags_section = OK tags
    ∧ m = set_readme_fields self (folder_name self) new_description apis
            (List.filter (λ w, bool_decide (w ∉ apis)) tags ++ apis).
Proof.
  unfold populate_from_readme, get_readme_parts, list_index, getitem. simpl.
  intros Hm.
  destruct (Py.index _ "Relevant API") as [i |]; simpl in Hm; [| done].
  destruct (Py.index _ "Tags") as [j |]; simpl in Hm; [| done].
  destruct (re_split readme_content !! 0%nat) as [head |]; simpl in Hm; [| done].
  destruct (parse_head head) as [[t d] |] eqn:Hhead; simpl in Hm; [| done].
  case_bool_decide as Ht; [done |].
  assert (t = folder_name self) as -> by (by destruct (decide (t = folder_name self))).
  destruct (re_split readme_content !! (i + 1)%nat) as [api_section |] eqn:Hasec;
    simpl in Hm; [| done].
  destruct (parse_apis api_section) as [apis |] eqn:Hapis; simpl in Hm; [| done].
  destruct (re_split readme_content !! (j + 1)%nat) as [tags_section |] eqn:Htsec;
    simpl in Hm; [| done].
  destruct (parse_tags tags_section) as [tags |] eqn:Htags; simpl in Hm; [| done].
  injection Hm as <-.
  by exists i, j, head, d, api_section, apis, tags_section, tags.
Qed.

Lemma populate_from_readme_display_map :
  populate_from_readme (sample "Display map") readme_display_map
  = OK (set_readme_fields (sample "Display map") "Display map"
          "Display a map with an imagery basemap." ["Map"; "MapView"]
          ["basemap"; "visualization"; "Map"; "MapView"]).
Proof. by lazy. Qed.

(** C6. After a successful [populate_from_readme], [keywords] is the list of
    the parsed tags without those that are entries of [relevant_apis],
    followed by the whole of [relevant_apis]; the first part and
    [relevant_apis] are disjoint as sets. *)
Theorem populate_from_readme_keywords self readme_content m :
  populate_from_readme self readme_content = OK m →
  let readme_parts := (get_readme_parts readme_content).1 in
  ∃ tags_index tags_section tags,
    Py.index readme_parts "Tags" = Some tags_index
    ∧ readme_parts !! (tags_index + 1)%nat = Some tags_section
    ∧ parse_tags tags_section = OK tags
    ∧ let plain_tags := List.filter (λ w, bool_decide (w ∉ relevant_apis m)) tags in
      keywords m = plain_tags ++ relevant_apis m
      ∧ (∀ w : string, w ∈ plain_tags ↔ w ∈ tags ∧ w ∉ relevant_apis m)
      ∧ (list_to_set plain_tags : gset string) ## list_to_set (relevant_apis m).
Proof.
  intros Hm readme_parts.
  destruct (populate_from_readme_OK _ _ _ Hm)
    as (i & j & head & d & asec & apis & tsec & tags
        & _ & Hj & _ & _ & _ & _ & Htsec & Htags & ->).
  exists j, tsec, tags. simpl.
  assert (∀ w : string, w ∈ List.filter (λ w, bool_decide (w ∉ apis)) tags
                        ↔ w ∈ tags ∧ w ∉ apis) as Hfilter.
  { intros w. rewrite !list_elem_of_In, filter_In, bool_decide_eq_true.
    by rewrite list_elem_of_In. }
  split_and!; try done; try apply Hfilter.
  intros x Hx1 Hx2. rewrite elem_of_list_to_set in Hx1, Hx2.
  by apply Hfilter in Hx1 as [_ Hx1].
Qed.

Lemma populate_from_readme_keywords_witness :
  ∃ tags_index tags_section tags,
    Py.index (get_readme_parts readme_display_map).1 "Tags" = Some tags_index
    ∧ (get_readme_parts readme_display_map).1 !! (tags_index + 1)%nat
      = Some tags_section
    ∧ parse_tags tags_section = OK tags
    ∧ ["basemap"; "visualization"; "Map"; "MapView"]
      = List.filter (λ w, bool_decide (w ∉ ["Map"; "MapView"])) tags
        ++ ["Map"; "MapView"].
Proof.
  destruct (populate_from_readme_keywords
              (sample "Display map") readme_display_map _
              populate_from_readme_display_map)
    as (j & tsec & tags & Hj & Htsec & Htags & Hkw & _).
  exists j, tsec, tags. repeat split; assumption.
Defined.

(** ** The list of the APIs *)

(** C2, as stated, fails: [parse_apis] sorts with [sorted] and no key, so
    the API [B] comes before the API [a], which is not the order of a
    case-insensitive comparison; and a body that is not empty but holds no
    non-empty line makes [parse_apis] raise. *)
Lemma parse_apis_not_case_insensitive :
  parse_apis ("* a" +:+ nl +:+ "* B") = OK ["B"; "a"]
  ∧ ¬ StronglySorted (key_le (@casefold AsciiCase.instance)) ["B"; "a"]
  ∧ nl ≠ "" ∧ parse_apis nl = Error README_Relevant_API_parse_failure.
Proof.
  split_and!; try done.
  intros Hsorted. inversion Hsorted as [| ? ? _ Hall].
  inversion Hall as [| ? ? Hle _]. by vm_compute in Hle.
Qed.

(** C2, amended. For every body with a non-empty line, [parse_apis] returns
    the names of the non-empty lines, each without its leading bullet
    characters and its trailing whitespace, sorted in the code-point order
    (case-sensitive); a body without a non-empty line raises. After a
    successful [populate_from_readme], [relevant_apis] is this list and
    [keywords] ends with it. *)
Theorem parse_apis_code_point_sorted :
  (∀ apis_string,
     Py.filter_nonempty (Py.splitlines apis_string) ≠ [] →
     ∃ apis,
       parse_apis apis_string = OK apis
       ∧ apis ≡ₚ strip_bullet <$> Py.filter_nonempty (Py.splitlines apis_string)
       ∧ StronglySorted code_point_le apis)
  ∧ (∀ apis_string,
       Py.filter_nonempty (Py.splitlines apis_string) = [] →
       parse_apis apis_string = Error README_Relevant_API_parse_failure)
  ∧ (∀ self readme_content m,
       populate_from_readme self readme_content = OK m →
       let readme_parts := (get_readme_parts readme_content).1 in
       ∃ api_index api_section plain_tags,
         Py.index readme_parts "Relevant API" = Some api_index
         ∧ readme_parts !! (api_index + 1)%nat = Some api_section
         ∧ parse_apis api_section = OK (relevant_apis m)
         ∧ keywords m = plain_tags ++ relevant_apis m).
Proof.
  split_and!.
  - intros apis_string Hne. unfold parse_apis.
    destruct (Py.filter_nonempty (Py.splitlines apis_string)) as [| api apis];
      [done |].
    eexists. split; [done |]. split.
    + apply sorted_by_Permutation.
    + apply sorted_by_StronglySorted.
  - intros apis_string Hnil. unfold parse_apis. by rewrite Hnil.
  - intros self readme_content m Hm readme_parts.
    destruct (populate_from_readme_OK _ _ _ Hm)
      as (i & j & head & d & asec & apis & tsec & tags
          & Hi & _ & _ & _ & Hasec & Hapis & _ & _ & ->).
    by exists i, asec, (List.filter (λ w, bool_decide (w ∉ apis)) tags).
Qed.

Lemma parse_apis_code_point_sorted_witness :
  ∃ apis,
    parse_apis ("* a" +:+ nl +:+ "* B") = OK apis
    ∧ apis ≡ₚ strip_bullet
              <$> Py.filter_nonempty (Py.splitlines ("* a" +:+ nl +:+ "* B"))
    ∧ StronglySorted code_point_le apis.
Proof.
  apply (proj1 parse_apis_code_point_sorted ("* a" +:+ nl +:+ "* B")).
  vm_compute. discriminate.
Defined.

(** ** The title block *)

Lemma lstrip_plain_start name :
  plain_start name = true → Py.lstrip_chars "# " name = Py.lstrip name.
Proof.
  unfold Py.lstrip_chars, Py.lstrip.
  induction name as [| c name IH]; simpl; [done |].
  destruct (Ascii.eqb_spec c " ") as [-> | Hsp].
  - intros H. rewrite orb_true_r. simpl. by apply IH.
  - rewrite orb_false_r. intros [Hp Hw]%andb_true_iff.
    apply negb_true_iff in Hp, Hw. by rewrite Hp, Hw.
Qed.

(** C10, as stated, fails: [lstrip] with the characters of the heading
    removes every leading pound mark and space, those of the name as well,
    and no other whitespace. *)
Lemma parse_head_title_not_stripped_name :
  Py.filter_nonempty
    (Py.splitlines ("# " +:+ "#1 map" +:+ nl +:+ "A map." +:+ nl +:+ "![](m.png)"))
  = ["# " +:+ "#1 map"; "A map."; "![](m.png)"]
  ∧ parse_head ("# " +:+ "#1 map" +:+ nl +:+ "A map." +:+ nl +:+ "![](m.png)")
    = OK ("1 map", "A map.")
  ∧ Py.strip "#1 map" = "#1 map"
  ∧ "1 map" ≠ Py.strip "#1 map".
Proof. split_and!; by vm_compute. Qed.

(** C10, amended. When the first non-empty line of a title block of at least
    three non-empty lines is [# name], [parse_head] returns as title [name]
    without its leading pound marks and spaces and without its trailing
    whitespace; this is [name] stripped of its surrounding whitespace
    whenever [name], after its leading spaces, does not begin with a pound
    mark or with another whitespace character. With fewer than three
    non-empty lines [parse_head] raises the parse error. *)
Theorem parse_head_title head_string :
  let parts := Py.filter_nonempty (Py.splitlines head_string) in
  ((length parts < 3)%nat →
   parse_head head_string = Error README_description_parse_failure)
  ∧ (∀ name line2 line3 rest,
       parts = ("# " +:+ name) :: line2 :: line3 :: rest →
       parse_head head_string
       = OK (Py.rstrip (Py.lstrip_chars "# " name), Py.strip line2)
       ∧ (plain_start name = true →
          Py.rstrip (Py.lstrip_chars "# " name) = Py.strip name)).
Proof.
  intros parts. unfold parse_head. fold parts. split.
  - intros Hlt. apply Nat.ltb_lt in Hlt. by rewrite Hlt.
  - intros name line2 line3 rest ->. split; [done |].
    intros Hplain. unfold Py.strip. by rewrite lstrip_plain_start.
Qed.

Lemma parse_head_title_witness :
  parse_head ("# Display map" +:+ nl +:+ nl +:+ "Display a map." +:+ nl +:+ nl
              +:+ "![](image.png)")
  = OK ("Display map", "Display a map.")
  ∧ parse_head ("# Display map" +:+ nl +:+ "Display a map.")
    = Error README_description_parse_failure.
Proof.
  split.
  - destruct (proj2 (parse_head_title
                       ("# Display map" +:+ nl +:+ nl +:+ "Display a map." +:+ nl
                        +:+ nl +:+ "![](image.png)"))
                "Display map" "Display a map." "![](image.png)" [])
      as [Hhead Htitle]; [by vm_compute |].
    rewrite Hhead. by vm_compute.
  - apply (proj1 (parse_head_title ("# Display map" +:+ nl +:+ "Display a map."))).
    vm_compute. lia.
Defined.

(** ** The check of the tags *)

(** C9. [check_tags] succeeds only if the stripped tags joined with a comma
    and a space are the tag string without its surrounding whitespace; when
    they differ the check raises: the error of the whitespace, unless a
    check that comes before it (the letter case, the empty tag) has raised
    already. *)
Theorem check_tags_round_trip `{StrCase} tags_string :
  (∀ s, check_tags tags_string = OK s →
        Py.join ", " (Py.strip <$> Py.split "," tags_string)
        = Py.strip tags_string)
  ∧ (Py.join ", " (Py.strip <$> Py.split "," tags_string) ≠ Py.strip tags_string →
     (∃ t, check_tags tags_string = Error (Wrong_letter_case_for_tag t))
     ∨ check_tags tags_string = Error Empty_char_in_tags
     ∨ check_tags tags_string = Error Extra_whitespaces_in_tags).
Proof.
  unfold check_tags.
  pose proof (split_nonempty "," tags_string) as Hne.
  destruct (Py.split "," tags_string) as [| tag tags]; [done |].
  split.
  - intros s Hs.
    destruct (List.find _ _); [done |].
    case_bool_decide; [done |].
    case_bool_decide as Hjoin; [done |].
    by destruct (decide (Py.join ", " (Py.strip <$> tag :: tags)
                         = Py.strip tags_string)).
  - intros Hjoin.
    destruct (List.find _ _); [left; eauto |].
    case_bool_decide; [right; by left |].
    right; right. by rewrite bool_decide_eq_true_2.
Qed.

Lemma check_tags_round_trip_witness :
  @check_tags AsciiCase.instance "basemap,  map" = Error Extra_whitespaces_in_tags.
Proof.
  destruct (proj2 (@check_tags_round_trip AsciiCase.instance "basemap,  map"))
    as [[t Ht] | [Hempty | Hextra]].
  - vm_compute. discriminate.
  - vm_compute in Ht. discriminate Ht.
  - vm_compute in Hempty. discriminate Hempty.
  - exact Hextra.
Defined.

(** ** The special rules of the metadata check *)

(** C1, as stated, fails: the test of the description rule is the operator
    [in] on strings, so a persisted description that is a shortened form of
    the derived one replaces it, although the two differ after the special
    characters are stripped. *)
Lemma description_replaced_by_shortened :
  p_description (persisted_display_map "Display a map" ["A.swift"; "B.swift"])
  ≠ sub_special_char (description derived_display_map)
  ∧ description
      (special_rules derived_display_map
         (persisted_display_map "Display a map" ["A.swift"; "B.swift"]))
    = "Display a map"
  ∧ description
      (special_rules derived_display_map
         (persisted_display_map "Display a map" ["A.swift"; "B.swift"]))
    ≠ description derived_display_map.
Proof. split_and!; by vm_compute. Qed.

(** C1, amended. The persisted description replaces the derived one before
    the comparison exactly when it occurs, as a run of consecutive
    characters, in the derived description stripped of the special
    characters (being equal to it is one such case); otherwise the derived
    description is kept. *)
Theorem description_lenience checker json_data :
  (occurs_in (p_description json_data) (sub_special_char (description checker)) →
   description (special_rules checker json_data) = p_description json_data)
  ∧ (¬ occurs_in (p_description json_data)
         (sub_special_char (description checker)) →
     description (special_rules checker json_data) = description checker)
  ∧ (p_description json_data = sub_special_char (description checker) →
     description (special_rules checker json_data) = p_description json_data).
Proof.
  assert (occurs_in (p_description json_data)
            (sub_special_char (description checker)) →
          description (special_rules checker json_data) = p_description json_data)
    as Hin.
  { intros Hocc%contains_spec. simpl. by rewrite Hocc. }
  split_and!; [done | |].
  - intros Hocc. simpl.
    destruct (Py.contains _ _) eqn:Hc; [| done].
    by apply contains_spec in Hc.
  - intros Heq. apply Hin. rewrite Heq. apply occurs_in_refl.
Qed.

Lemma description_lenience_witness :
  description
    (special_rules derived_display_map
       (persisted_display_map "Display a map" ["A.swift"; "B.swift"]))
  = "Display a map"
  ∧ description
      (special_rules derived_display_map
         (persisted_display_map "Displays a map" ["A.swift"; "B.swift"]))
    = "Display a map with an imagery basemap.".
Proof.
  split.
  - apply (proj1 (description_lenience derived_display_map
                    (persisted_display_map "Display a map" ["A.swift"; "B.swift"]))).
    exists "", " with an imagery basemap.". reflexivity.
  - apply (proj1 (proj2 (description_lenience derived_display_map
                    (persisted_display_map "Displays a map" ["A.swift"; "B.swift"])))).
    intros Hocc%contains_spec. vm_compute in Hocc. discriminate Hocc.
Defined.

(** ** The order of the snippets *)

Lemma populate_from_paths_OK `{OsPath} `{StrCase} self listdir checker :
  populate_from_paths self listdir = OK checker →
  ∃ imgs results,
    checker = set_paths_fields self imgs (Py.sorted results).
Proof.
  unfold populate_from_paths. intros Hp.
  destruct (get_images_paths listdir) as [imgs |]; simpl in Hp; [| done].
  unfold get_source_code_paths in Hp.
  destruct (List.filter _ listdir) as [| file files]; simpl in Hp; [done |].
  injection Hp as <-. by exists imgs, (file :: files).
Qed.


Lemma empty_not_category : "" ∉ categories.
Proof. refine (bool_decide_unpack _ _). by vm_compute. Qed.



(** * Further properties *)

(** ** The subsequence check and the check of the headers *)

(** X1. For a non-empty [list_a], [check_is_subsequence] returns an integer
    that is zero exactly when [list_a] is a subsequence of [list_b], and
    that is at most the length of [list_a]. *)
Theorem check_is_subsequence_correct list_a list_b :
  list_a ≠ [] →
  ∃ n, check_is_subsequence list_a list_b = PyInt n
       ∧ (n = 0%nat ↔ sublist list_a list_b)
       ∧ (n ≤ length list_a)%nat.
Proof.
  intros Hne.
  destruct (check_is_subsequence_nonempty list_a list_b Hne) as (n & Hn & Hz & Hu).
  exists n. split_and!; [done | done |].
  rewrite Hu, <- (length_reverse list_a). apply unmatched_le.
Qed.

Lemma check_is_subsequence_correct_witness :
  check_is_subsequence ["a"; "b"; "c"] ["a"; "h"; "b"; "g"; "d"; "c"] = PyInt 0.
Proof.
  destruct (check_is_subsequence_correct
              ["a"; "b"; "c"] ["a"; "h"; "b"; "g"; "d"; "c"])
    as (n & Hn & Hz & _); [discriminate |].
  rewrite Hn. f_equal. apply Hz.
  repeat first [apply sublist_nil_l | apply sublist_skip | apply sublist_cons].
Defined.

Lemma difference_empty_subseteq (X Y : gset string) : X ∖ Y = ∅ ↔ X ⊆ Y.
Proof.
  split.
  - intros Hd x Hx. destruct (decide (x ∈ Y)) as [| Hn]; [done |].
    assert (x ∈ X ∖ Y) as Hin by (by apply elem_of_difference).
    rewrite Hd in Hin. by apply not_elem_of_empty in Hin.
  - intros Hsub. apply set_eq. intros x.
    rewrite elem_of_difference. split; [| by intros ?%not_elem_of_empty].
    intros [Hx Hn]. destruct Hn. by apply Hsub.
Qed.

Lemma essential_headers_not_empty_list :
  essential_headers ∖ (list_to_set [] : gset string) ≠ ∅.
Proof.
  intros Hsub%difference_empty_subseteq.
  assert ("Tags" ∈ essential_headers) as Hin.
  { refine (bool_decide_unpack _ _). by vm_compute. }
  apply Hsub in Hin. by apply elem_of_list_to_set, not_elem_of_nil in Hin.
Qed.

(** X2. [check_format_heading] accepts a list of headers exactly when every
    essential header is in it and it is a subsequence of the list of the
    available headers. *)
Theorem check_format_heading_accepts readme_headers :
  check_format_heading readme_headers = OK ()
  ↔ essential_headers ⊆ list_to_set readme_headers
    ∧ sublist readme_headers available_headers.
Proof.
  unfold check_format_heading. split.
  - case_bool_decide as Hextra; [done |].
    case_bool_decide as Hmissing; [done |].
    assert (readme_headers ≠ []) as Hne.
    { intros ->. by apply essential_headers_not_empty_list in Hmissing. }
    destruct (check_is_subsequence_nonempty readme_headers available_headers Hne)
      as (n & -> & Hz & _).
    simpl. case_bool_decide as Hn.
    + by destruct (getitem _ _).
    + intros _. split; [| apply Hz; lia].
      by apply difference_empty_subseteq.
  - intros [Hess Hsub].
    rewrite bool_decide_eq_false_2.
    2:{ intros Hd. apply Hd. apply difference_empty_subseteq. intros x.
        rewrite !elem_of_list_to_set. intros Hx. by eapply elem_of_sublist. }
    apply difference_empty_subseteq in Hess.
    rewrite bool_decide_eq_false_2 by (by intros Hd).
    assert (readme_headers ≠ []) as Hne.
    { intros ->. by apply essential_headers_not_empty_list in Hess. }
    destruct (check_is_subsequence_nonempty readme_headers available_headers Hne)
      as (n & -> & Hz & _).
    simpl. apply Hz in Hsub as ->. by rewrite bool_decide_eq_false_2 by lia.
Qed.

Lemma check_format_heading_accepts_witness :
  check_format_heading
    ["Use case"; "How to use the sample"; "How it works"; "Relevant API";
     "About the data"; "Tags"] = OK ().
Proof.
  apply check_format_heading_accepts. split.
  - refine (bool_decide_unpack _ _). vm_compute. exact I.
  - unfold available_headers.
    repeat first [apply sublist_nil_l | apply sublist_skip | apply sublist_cons].
Defined.

(** X3. [check_format_heading] returns, or raises one of its three errors
    with a set that is not empty or with a header of the README: the index
    of the header in the message of the wrong order is always in range. *)
Theorem check_format_heading_errors readme_headers :
  check_format_heading readme_headers = OK ()
  ∨ (∃ sets_diff, sets_diff ≠ ∅
       ∧ check_format_heading readme_headers = Error (Unexpected_header sets_diff))
  ∨ (∃ sets_diff, sets_diff ≠ ∅
       ∧ check_format_heading readme_headers
         = Error (Missing_essential_headers sets_diff))
  ∨ (∃ header, header ∈ readme_headers
       ∧ check_format_heading readme_headers = Error (Wrong_order_at header)).
Proof.
  unfold check_format_heading.
  case_bool_decide as Hextra; [right; left; eauto |].
  case_bool_decide as Hmissing; [right; right; left; eauto |].
  assert (readme_headers ≠ []) as Hne.
  { intros ->. by apply essential_headers_not_empty_list in Hmissing. }
  destruct (check_is_subsequence_nonempty readme_headers available_headers Hne)
    as (n & -> & _ & Hn).
  simpl. case_bool_decide as Hnz; [| by left].
  right; right; right.
  assert (n - 1 < length readme_headers)%nat as Hlt.
  { pose proof (unmatched_le (reverse readme_headers) (reverse available_headers)).
    rewrite length_reverse in *. lia. }
  apply lookup_lt_is_Some_2 in Hlt as [header Hh].
  exists header. split; [by eapply list_elem_of_lookup_2 |].
  unfold getitem. by rewrite Hh.
Qed.

(** ** The parts of a README *)

Lemma list_ind2 {A} (P : list A → Prop) :
  P [] → (∀ x, P [x]) → (∀ x y l, P l → P (x :: y :: l)) → ∀ l, P l.
Proof.
  intros Hnil Hone Hstep l.
  assert (P l ∧ ∀ x, P (x :: l)) as [H _]; [| done].
  induction l as [| y l [IH1 IH2]]; [done |].
  split; [apply IH2 | intros x; by apply Hstep].
Qed.

Lemma mem_cons c d s : Py.mem c (String d s) = Ascii.eqb c d || Py.mem c s.
Proof. done. Qed.

Lemma mem_rev_app c s1 s2 :
  Py.mem c (String.rev_app s1 s2) = Py.mem c s1 || Py.mem c s2.
Proof.
  revert s2. induction s1 as [| a s1 IH]; intros s2; simpl; [done |].
  rewrite IH. simpl. destruct (Ascii.eqb c a), (Py.mem c s1), (Py.mem c s2); done.
Qed.

Lemma mem_rev c s : Py.mem c (String.rev s) = Py.mem c s.
Proof. unfold String.rev. rewrite mem_rev_app. simpl. by rewrite orb_false_r. Qed.

(** The step of [re_split_go] on a character of a body, with the tests of
    the pattern written as tests on characters. *)
Lemma re_split_go_body flag cur c s1 :
  re_split_go (InBody flag) cur (String c s1)
  = if flag && Ascii.eqb c "#" then
      match s1 with
      | String a (String w s3) =>
          if Ascii.eqb a "#" && Py.isspace w
          then String.rev cur :: re_split_go InHeader EmptyString s3
          else re_split_go (InBody (Ascii.eqb c "010")) (String c cur) s1
      | _ => re_split_go (InBody (Ascii.eqb c "010")) (String c cur) s1
      end
    else re_split_go (InBody (Ascii.eqb c "010")) (String c cur) s1.
Proof.
  cbn [re_split_go]. destruct (flag && Ascii.eqb c "#"); [| done].
  destruct s1 as [| a [| w s3]]; [done | |].
  - by destruct a as [[] [] [] [] [] [] [] []].
  - by destruct a as [[] [] [] [] [] [] [] []].
Qed.

Lemma re_split_go_header cur c s1 :
  re_split_go InHeader cur (String c s1)
  = if Ascii.eqb c "010"
    then String.rev cur :: re_split_go (InBody true) (String c EmptyString) s1
    else re_split_go InHeader (String c cur) s1.
Proof. done. Qed.

Lemma line_start_body_like cur : line_start cur → body_like (String.rev cur).
Proof.
  intros [-> | [cur' ->]]; [by left | right].
  unfold has_line_feed. by rewrite mem_rev.
Qed.

Lemma re_split_go_shape n :
  ∀ s, (String.length s ≤ n)%nat →
  ∀ cur,
    (has_line_feed cur = false → sections_ok (re_split_go InHeader cur s))
    ∧ (∀ flag, (flag = true → line_start cur) →
       ∃ body rest,
         re_split_go (InBody flag) cur s = body :: rest
         ∧ sections_ok rest
         ∧ (rest ≠ [] → body_like body)
         ∧ (has_line_feed cur = true → body_like body)).
Proof.
  induction n as [| n IH]; intros s Hlen cur.
  - destruct s; [| simpl in Hlen; lia]. split.
    + intros Hcur. simpl. split_and!; [| by left | done].
      unfold has_line_feed. by rewrite mem_rev.
    + intros flag _. exists (String.rev cur), []. split_and!; try done.
      intros Hcur. right. unfold has_line_feed. by rewrite mem_rev.
  - destruct s as [| c s1].
    { apply (IH ""); simpl; lia. }
    simpl in Hlen. assert (String.length s1 ≤ n)%nat as Hs1 by lia.
    split.
    + intros Hcur. rewrite re_split_go_header.
      destruct (Ascii.eqb_spec c "010") as [-> | Hc].
      * destruct (proj2 (IH s1 Hs1 (String "010" "")) true)
          as (body & rest & -> & Hrest & _ & Hbody).
        { intros _. right. by exists "". }
        simpl. split_and!; [| by apply Hbody | done].
        unfold has_line_feed. by rewrite mem_rev.
      * apply (IH s1 Hs1). unfold has_line_feed in *.
        rewrite mem_cons, Hcur, orb_false_r. apply Ascii.eqb_neq. congruence.
    + intros flag Hflag. rewrite re_split_go_body.
      assert (∃ body rest,
                re_split_go (InBody (Ascii.eqb c "010")) (String c cur) s1
                = body :: rest
                ∧ sections_ok rest
                ∧ (rest ≠ [] → body_like body)
                ∧ (has_line_feed cur = true → body_like body)) as Hcont.
      { destruct (proj2 (IH s1 Hs1 (String c cur)) (Ascii.eqb c "010"))
          as (body & rest & Heq & Hrest & Hne & Hbody).
        { intros ->%Ascii.eqb_eq. right. by exists cur. }
        exists body, rest. split_and!; try done.
        intros Hcur. apply Hbody. unfold has_line_feed in *.
        by rewrite mem_cons, Hcur, orb_true_r. }
      destruct (flag && Ascii.eqb c "#") eqn:Hmatch; [| done].
      destruct s1 as [| a [| w s3]]; [done | done |].
      destruct (Ascii.eqb a "#" && Py.isspace w); [| done].
      apply andb_true_iff in Hmatch as [-> _].
      exists (String.rev cur), (re_split_go InHeader "" s3).
      split_and!; [done | | |].
      * apply (IH s3); [simpl in Hs1; lia | done].
      * intros _. by apply line_start_body_like, Hflag.
      * intros _. by apply line_start_body_like, Hflag.
Qed.

Lemma re_split_shape content :
  ∃ body rest,
    re_split content = body :: rest
    ∧ sections_ok rest
    ∧ (rest ≠ [] → body_like body).
Proof.
  destruct (proj2 (re_split_go_shape (String.length content) content
                     (le_n _) "") true)
    as (body & rest & Heq & Hrest & Hbody & _); [by left |].
  by exists body, rest.
Qed.



Lemma sections_ok_index rest name :
  sections_ok rest →
  name ≠ "" → has_line_feed name = false →
  ∀ body j,
    Py.index rest name = Some j →
    ∃ k, j = (2 * k)%nat
         ∧ Py.index (odd_entries (body :: rest)) name = Some k
         ∧ is_Some (rest !! S j).
Proof.
  intros Hok Hne Hnl.
  induction rest as [| x | h b rest IH] using list_ind2; intros body j; [done.. |].
  destruct Hok as (_ & Hb & Hrest).
  cbn [Py.index odd_entries]. destruct (decide (h = name)) as [-> | Hh].
  - intros [= <-]. exists 0%nat. split_and!; [done | done | by eexists].
  - destruct (decide (b = name)) as [-> | Hbn].
    { destruct Hb as [-> | Hb]; [done | congruence]. }
    destruct (Py.index rest name) as [j' |] eqn:Hj'; [| done].
    simpl. intros [= <-].
    destruct (IH Hrest b j' eq_refl) as (k & -> & Hk & Hnext).
    exists (S k). split_and!; [lia | | done].
    change (S <$> Py.index (odd_entries (b :: rest)) name = Some (S k)).
    by rewrite Hk.
Qed.


Lemma re_split_section_lookup content name i :
  let readme_parts := (get_readme_parts content).1 in
  let readme_headers := (get_readme_parts content).2 in
  name ≠ "" → has_line_feed name = false →
  (1 < length readme_parts)%nat →
  Py.index readme_parts name = Some i →
  ∃ k, i = (2 * k + 1)%nat
       ∧ Py.index readme_headers name = Some k
       ∧ is_Some (readme_parts !! (i + 1)%nat).
Proof.
  unfold get_readme_parts, re_findall. simpl. intros Hne Hnl Hlen.
  destruct (re_split_shape content) as (body & rest & Heq & Hok & Hbody).
  rewrite Heq in *.
  assert (rest ≠ []) as Hrest by (intros ->; simpl in Hlen; lia).
  cbn [Py.index]. destruct (decide (body = name)) as [-> | Hb].
  { destruct (Hbody Hrest) as [-> | Hf]; [done | congruence]. }
  destruct (Py.index rest name) as [j |] eqn:Hj; [| done].
  simpl. intros [= <-].
  destruct (sections_ok_index rest name Hok Hne Hnl body j Hj) as (k & -> & Hk & Hnext).
  exists k. split_and!; [lia | done |].
  by replace (S (2 * k) + 1)%nat with (S (S (2 * k))) by lia.
Qed.

(** X5. In the parts of a README with at least one header, the position
    that [index] finds for a name that is not empty and has no line feed is
    that of the first header of this name, and the part after it exists. *)
Theorem get_readme_parts_section_lookup content name i :
  let readme_parts := (get_readme_parts content).1 in
  let readme_headers := (get_readme_parts content).2 in
  name ≠ "" → has_line_feed name = false →
  (1 < length readme_parts)%nat →
  Py.index readme_parts name = Some i →
  ∃ k, i = (2 * k + 1)%nat
       ∧ Py.index readme_headers name = Some k
       ∧ is_Some (readme_parts !! (i + 1)%nat).
Proof.
  intros readme_parts readme_headers Hne Hnl Hlen Hi.
  by apply re_split_section_lookup.
Qed.

Lemma get_readme_parts_section_lookup_witness :
  ∃ k, Py.index (get_readme_parts readme_display_map).2 "Tags" = Some k
       ∧ is_Some ((get_readme_parts readme_display_map).1 !! (2 * k + 1 + 1)%nat).
Proof.
  destruct (get_readme_parts_section_lookup readme_display_map "Tags" 9)
    as (k & Hi & Hk & Hnext).
  - discriminate.
  - reflexivity.
  - lazy. lia.
  - lazy. reflexivity.
  - exists k. split; [exact Hk |]. rewrite <- Hi. exact Hnext.
Defined.

(** ** The errors of the derivation *)

Lemma parse_head_cases head_string :
  (∃ new_title new_description,
     parse_head head_string = OK (new_title, new_description))
  ∨ parse_head head_string = Error README_description_parse_failure.
Proof.
  unfold parse_head.
  destruct (Py.filter_nonempty (Py.splitlines head_string)) as [| a [| b [| c l]]];
    simpl; eauto.
Qed.

(** X6. [populate_from_readme] returns a record, or raises the [ValueError]
    of a missing section, the parse failure of the title block or of the
    APIs, or the error of the folder name: it raises no [IndexError], and
    never the parse failure of the tags. *)
Theorem populate_from_readme_errors self readme_content :
  (∃ m, populate_from_readme self readme_content = OK m)
  ∨ populate_from_readme self readme_content
    = Error (ValueError_not_in_list "Relevant API")
  ∨ populate_from_readme self readme_content
    = Error (ValueError_not_in_list "Tags")
  ∨ populate_from_readme self readme_content
    = Error README_description_parse_failure
  ∨ populate_from_readme self readme_content
    = Error (Folder_name_incorrect (folder_name self))
  ∨ populate_from_readme self readme_content
    = Error README_Relevant_API_parse_failure.
Proof.
  unfold populate_from_readme, list_index.
  pose proof (re_split_section_lookup readme_content "Relevant API") as Hapi.
  pose proof (re_split_section_lookup readme_content "Tags") as Htags.
  unfold get_readme_parts in *. simpl in Hapi, Htags. simpl.
  destruct (Py.index (re_split readme_content) "Relevant API") as [i |] eqn:Hi;
    [| right; by left].
  destruct (Py.index (re_split readme_content) "Tags") as [j |] eqn:Hj;
    [| right; right; by left].
  simpl.
  assert (1 < length (re_split readme_content))%nat as Hlen.
  { apply index_lookup in Hi, Hj.
    destruct (re_split readme_content) as [| a [| b l]]; [done | | simpl; lia].
    destruct i, j; by simplify_eq/=. }
  destruct (Hapi i) as (_ & _ & _ & [api_section Hasec]); [done.. |].
  destruct (Htags j) as (_ & _ & _ & [tags_section Htsec]); [done.. |].
  destruct (re_split readme_content) as [| head parts] eqn:Hparts;
    [simpl in Hlen; lia |].
  unfold getitem at 1. simpl.
  destruct (parse_head_cases head) as [(t & d & ->) | ->];
    [| right; right; right; by left].
  simpl. case_bool_decide; [right; right; right; right; by left |].
  unfold getitem. rewrite Hasec, Htsec. simpl.
  unfold parse_apis.
  destruct (Py.filter_nonempty (Py.splitlines api_section));
    [right; right; right; right; by right |].
  simpl. unfold parse_tags.
  pose proof (split_nonempty "," tags_section).
  destruct (Py.split "," tags_section); [done |].
  left. by eexists.
Qed.

(** ** The checks of the APIs and of the tags *)

Lemma existsb_false_Forall {A} (f : A → bool) l :
  existsb f l = false ↔ Forall (λ x, f x = false) l.
Proof.
  induction l as [| x l IH]; simpl; [by split; [constructor |] |].
  rewrite orb_false_iff, IH, Forall_cons. done.
Qed.

Lemma find_None_Forall {A} (f : A → bool) l :
  List.find f l = None ↔ Forall (λ x, f x = false) l.
Proof.
  induction l as [| x l IH]; simpl; [by split; [constructor |] |].
  rewrite Forall_cons. destruct (f x); [| by rewrite IH; intuition].
  split; [done | by intros [? _]].
Qed.

Lemma size_list_to_set_le (l : list string) :
  (size (list_to_set l : gset string) ≤ length l)%nat
  ∧ (size (list_to_set l : gset string) = length l ↔ NoDup l).
Proof.
  induction l as [| x l [IHle IHeq]]; cbn [list_to_set foldr length].
  - rewrite size_empty. split; [done |]. split; [constructor | done].
  - destruct (decide (x ∈ l)) as [Hin | Hnin].
    + assert ({[x]} ∪ (list_to_set l : gset string) = list_to_set l) as ->.
      { apply set_eq. intros y. rewrite elem_of_union, elem_of_singleton,
          elem_of_list_to_set. split; [by intros [-> |] | by right]. }
      split; [lia |]. rewrite NoDup_cons. split; [lia | by intros [? _]].
    + rewrite size_union, size_singleton.
      2:{ intros y Hy1%elem_of_singleton Hy2%elem_of_list_to_set. by subst. }
      split; [lia |]. rewrite NoDup_cons, <- IHeq. split; [intros; split; [done | lia] | lia].
Qed.

Lemma size_list_to_set_lt (l : list string) :
  (size (list_to_set l : gset string) < length l)%nat ↔ ¬ NoDup l.
Proof.
  destruct (size_list_to_set_le l) as [Hle Heq]. rewrite <- Heq. lia.
Qed.

Lemma sorted_by_fixed key l :
  l = Py.sorted_by key l ↔ StronglySorted (key_le key) l.
Proof.
  split.
  - intros ->. apply sorted_by_StronglySorted.
  - induction 1 as [| x l Hl IH Hx]; [done |].
    simpl. rewrite <- IH. destruct l as [| y l]; [done |].
    simpl. apply Forall_cons in Hx as [Hxy _].
    unfold key_le, String.le in Hxy. by destruct (String.leb (key x) (key y)).
Qed.

(** X7. [check_apis] accepts a section exactly when its lines, stripped of
    the bullets, are at least one, hold no backtick, are not empty, are all
    different and are in the order of their case-folded forms; it then
    returns them as a set. *)
Theorem check_apis_accepts `{StrCase} apis_string s :
  check_apis apis_string = OK s
  ↔ (let apis := (strip_bullet <$> Py.splitlines (Py.strip apis_string)) in
     apis ≠ []
     ∧ Forall (λ a, Py.contains a "`" = false) apis
     ∧ ("" ∉ apis)
     ∧ NoDup apis
     ∧ StronglySorted (key_le casefold) apis
     ∧ s = list_to_set apis).
Proof.
  unfold check_apis.
  destruct (Py.splitlines (Py.strip apis_string)) as [| line lines] eqn:Hlines.
  { simpl. split; [done | by intros [? _]]. }
  remember (strip_bullet <$> (line :: lines)) as apis eqn:Hapis.
  assert (length (line :: lines) = length apis) as Hlen
    by (by rewrite Hapis, length_fmap).
  rewrite Hlen. cbv zeta.
  destruct (existsb _ apis) eqn:Hticks.
  { split; [done |]. intros (_ & Hall%existsb_false_Forall & _). congruence. }
  apply existsb_false_Forall in Hticks.
  case_bool_decide as Hempty.
  { split; [done |]. intros (_ & _ & Hn & _). destruct Hn.
    by apply elem_of_list_to_set in Hempty. }
  case_bool_decide as Hdup.
  { split; [done |]. intros (_ & _ & _ & Hnd & _).
    apply size_list_to_set_lt in Hdup. by destruct Hdup. }
  case_bool_decide as Hsorted.
  { split; [done |]. intros (_ & _ & _ & _ & Hs%sorted_by_fixed & _).
    by destruct Hsorted. }
  split.
  - intros [= <-]. split_and!; try done.
    + by rewrite Hapis.
    + intros Hin. destruct Hempty. by apply elem_of_list_to_set.
    + destruct (decide (NoDup apis)) as [| Hn]; [done |].
      apply size_list_to_set_lt in Hn. lia.
    + by apply sorted_by_fixed.
  - by intros (_ & _ & _ & _ & _ & ->).
Qed.

Lemma check_apis_accepts_witness :
  ∃ s, @check_apis AsciiCase.instance ("* Map" +:+ nl +:+ "* MapView" +:+ nl) = OK s.
Proof.
  eexists. apply (@check_apis_accepts AsciiCase.instance). cbv zeta.
  split_and!; [| | | | | reflexivity].
  - vm_compute. discriminate.
  - vm_compute. repeat constructor.
  - vm_compute. intros Hin.
    repeat (apply elem_of_cons in Hin as [Hin | Hin]; [discriminate |]).
    by apply not_elem_of_nil in Hin.
  - refine (bool_decide_unpack _ _). vm_compute. exact I.
  - vm_compute. repeat constructor; exact I.
Defined.

Lemma wrong_letter_case_false `{StrCase} t :
  wrong_letter_case t = false
  ↔ lower t = t ∨ upper t = t ∨ capitalize t = t ∨ t ∈ exception_proper_nouns.
Proof.
  unfold wrong_letter_case.
  rewrite !andb_false_iff, !bool_decide_eq_false.
  destruct (decide (lower t = t)), (decide (upper t = t)),
    (decide (capitalize t = t)), (decide (t ∈ exception_proper_nouns));
    tauto.
Qed.

(** X8. [check_tags] accepts a section exactly when its pieces between the
    commas, stripped, are each in lower case, in upper case, capitalised or
    a listed proper noun, are not empty, give back the stripped section
    when joined with a comma and a space, are all different and are in the
    order of their case-folded forms; it then returns them as a set. *)
Theorem check_tags_accepts `{StrCase} tags_string s :
  check_tags tags_string = OK s
  ↔ (let tags := (Py.strip <$> Py.split "," tags_string) in
     Forall (λ t, lower t = t ∨ upper t = t ∨ capitalize t = t
                  ∨ t ∈ exception_proper_nouns) tags
     ∧ ("" ∉ tags)
     ∧ Py.join ", " tags = Py.strip tags_string
     ∧ NoDup tags
     ∧ StronglySorted (key_le casefold) tags
     ∧ s = list_to_set tags).
Proof.
  unfold check_tags.
  pose proof (split_nonempty "," tags_string) as Hne.
  destruct (Py.split "," tags_string) as [| piece pieces] eqn:Hpieces; [done |].
  remember (Py.strip <$> (piece :: pieces)) as tags eqn:Htags.
  assert (length (piece :: pieces) = length tags) as Hlen
    by (by rewrite Htags, length_fmap).
  rewrite Hlen. cbv zeta.
  assert (Forall (λ t, lower t = t ∨ upper t = t ∨ capitalize t = t
                       ∨ t ∈ exception_proper_nouns) tags
          ↔ List.find wrong_letter_case tags = None) as Hcase.
  { rewrite find_None_Forall. apply Forall_iff. intros t.
    by rewrite wrong_letter_case_false. }
  rewrite Hcase.
  destruct (List.find wrong_letter_case tags) as [t |].
  { split; [done | by intros [? _]]. }
  case_bool_decide as Hempty.
  { split; [done |]. intros (_ & Hn & _). destruct Hn.
    by apply elem_of_list_to_set in Hempty. }
  case_bool_decide as Hjoin.
  { split; [done |]. by intros (_ & _ & ? & _). }
  case_bool_decide as Hdup.
  { split; [done |]. intros (_ & _ & _ & Hnd & _).
    apply size_list_to_set_lt in Hdup. by destruct Hdup. }
  case_bool_decide as Hsorted.
  { split; [done |]. intros (_ & _ & _ & _ & Hs%sorted_by_fixed & _).
    by destruct Hsorted. }
  split.
  - intros [= <-]. split_and!; try done.
    + intros Hin. destruct Hempty. by apply elem_of_list_to_set.
    + destruct (decide (NoDup tags)) as [| Hn]; [done |].
      apply size_list_to_set_lt in Hn. lia.
    + by apply sorted_by_fixed.
  - by intros (_ & _ & _ & _ & _ & ->).
Qed.

Lemma check_tags_accepts_witness :
  ∃ s, @check_tags AsciiCase.instance "basemap, map" = OK s.
Proof.
  eexists. apply (@check_tags_accepts AsciiCase.instance). cbv zeta.
  split_and!; [| | | | | reflexivity].
  - vm_compute. repeat constructor.
  - vm_compute. intros Hin.
    repeat (apply elem_of_cons in Hin as [Hin | Hin]; [discriminate |]).
    by apply not_elem_of_nil in Hin.
  - vm_compute. reflexivity.
  - refine (bool_decide_unpack _ _). vm_compute. exact I.
  - vm_compute. repeat constructor; exact I.
Defined.

(** ** The special characters *)

Lemma mem_remove_chars p c s :
  Py.mem c (Py.remove_chars p s) = negb (p c) && Py.mem c s.
Proof.
  induction s as [| a s IH]; simpl; [by rewrite andb_false_r |].
  destruct (p a) eqn:Hpa; simpl; rewrite IH.
  - destruct (Ascii.eqb_spec c a) as [-> | _]; [| done].
    by rewrite Hpa.
  - destruct (Ascii.eqb_spec c a) as [-> | _]; [by rewrite Hpa |].
    by destruct (p c).
Qed.

Lemma remove_chars_clean p s :
  (∀ c, p c = true → Py.mem c s = false) → Py.remove_chars p s = s.
Proof.
  induction s as [| a s IH]; intros Hclean; simpl; [done |].
  destruct (p a) eqn:Hpa.
  - specialize (Hclean a Hpa). simpl in Hclean.
    by rewrite Ascii.eqb_refl in Hclean.
  - f_equal. apply IH. intros c Hc. specialize (Hclean c Hc). simpl in Hclean.
    by apply orb_false_iff in Hclean as [_ ?].
Qed.

(** X9. The result of [sub_special_char] holds none of the special
    characters; a text without them is returned as it is, so the function
    is idempotent. *)
Theorem sub_special_char_clean s :
  (∀ c, Py.mem c special_chars = true → Py.mem c (sub_special_char s) = false)
  ∧ ((∀ c, Py.mem c special_chars = true → Py.mem c s = false) →
     sub_special_char s = s)
  ∧ sub_special_char (sub_special_char s) = sub_special_char s.
Proof.
  assert (∀ t c, Py.mem c special_chars = true →
                 Py.mem c (sub_special_char t) = false) as Hclean.
  { intros t c Hc. unfold sub_special_char. by rewrite mem_remove_chars, Hc. }
  split_and!; [apply Hclean | apply remove_chars_clean |].
  apply remove_chars_clean, Hclean.
Qed.

Lemma sub_special_char_clean_witness :
  sub_special_char "Display a map." = "Display a map.".
Proof.
  apply (proj1 (proj2 (sub_special_char_clean "Display a map."))).
  intros c Hc. destruct c as [[] [] [] [] [] [] [] []]; first [done | discriminate Hc].
Defined.

(** ** The dictionaries compared by the metadata check *)

Lemma flush_data_metadata_dict self :
  flush_data self
  = metadata_dict (category self) (description self) (ignore self) (images self)
      (keywords self) (redirect_from self) (relevant_apis self) (snippets self)
      (title self) (written_offline_data (offline_data self)).
Proof. unfold flush_data, metadata_dict. by destruct (offline_data self). Qed.

Lemma json_data_dict_metadata_dict json_data :
  json_data_dict json_data
  = metadata_dict (p_category json_data) (p_description json_data)
      (p_ignore json_data) (p_images json_data) (p_keywords json_data)
      (p_redirect_from json_data) (p_relevant_apis json_data)
      (p_snippets json_data) (p_title json_data) (p_offline_data json_data).
Proof. done. Qed.

Lemma metadata_dict_lookups cat text ign imgs kws redirects apis snips name offline :
  let d := metadata_dict cat text ign imgs kws redirects apis snips name offline in
  d !! "category" = Some (JString cat)
  ∧ d !! "description" = Some (JString text)
  ∧ d !! "ignore" = Some (JBool ign)
  ∧ d !! "images" = Some (JList imgs)
  ∧ d !! "keywords" = Some (JList kws)
  ∧ d !! "redirect_from" = Some (JList redirects)
  ∧ d !! "relevant_apis" = Some (JList apis)
  ∧ d !! "snippets" = Some (JList snips)
  ∧ d !! "title" = Some (JString name)
  ∧ d !! "offline_data" = JList <$> offline.
Proof.
  unfold metadata_dict. destruct offline; simpl; split_and!; by simplify_map_eq.
Qed.

Lemma metadata_dict_inj
    cat1 text1 ign1 imgs1 kws1 redirects1 apis1 snips1 name1 offline1
    cat2 text2 ign2 imgs2 kws2 redirects2 apis2 snips2 name2 offline2 :
  metadata_dict cat1 text1 ign1 imgs1 kws1 redirects1 apis1 snips1 name1 offline1
  = metadata_dict cat2 text2 ign2 imgs2 kws2 redirects2 apis2 snips2 name2 offline2 →
  cat1 = cat2 ∧ text1 = text2 ∧ ign1 = ign2 ∧ imgs1 = imgs2 ∧ kws1 = kws2
  ∧ redirects1 = redirects2 ∧ apis1 = apis2 ∧ snips1 = snips2 ∧ name1 = name2
  ∧ offline1 = offline2.
Proof.
  intros Heq.
  pose proof (metadata_dict_lookups cat1 text1 ign1 imgs1 kws1 redirects1 apis1
                snips1 name1 offline1) as H1.
  pose proof (metadata_dict_lookups cat2 text2 ign2 imgs2 kws2 redirects2 apis2
                snips2 name2 offline2) as H2.
  cbv zeta in H1, H2. rewrite Heq in H1.
  destruct H1 as (A1 & B1 & C1 & D1 & E1 & F1 & G1 & I1 & J1 & K1).
  destruct H2 as (A2 & B2 & C2 & D2 & E2 & F2 & G2 & I2 & J2 & K2).
  rewrite A1 in A2. rewrite B1 in B2. rewrite C1 in C2. rewrite D1 in D2.
  rewrite E1 in E2. rewrite F1 in F2. rewrite G1 in G2. rewrite I1 in I2.
  rewrite J1 in J2. rewrite K1 in K2.
  split_and!; try congruence.
  destruct offline1, offline2; simpl in K2; congruence.
Qed.

(** X10. The two dictionaries that [run_check] serialises are equal exactly
    when the persisted record has the derived title, images, keywords and
    APIs and the value of [ignore] of the checker, a description that is
    the derived one or occurs in it once the special characters are
    stripped, a list of snippets that is the derived one or that sorted is
    the derived one, and a key [offline_data] that is absent, with no
    offline data in the checker, or present with a list that is not
    empty. *)
Theorem compared_dictionaries_equal checker json_data :
  flush_data (special_rules checker json_data) = json_data_dict json_data
  ↔ p_title json_data = title checker
    ∧ p_ignore json_data = ignore checker
    ∧ p_images json_data = images checker
    ∧ p_keywords json_data = keywords checker
    ∧ p_relevant_apis json_data = relevant_apis checker
    ∧ (p_description json_data = description checker
       ∨ occurs_in (p_description json_data)
           (sub_special_char (description checker)))
    ∧ (p_snippets json_data = snippets checker
       ∨ Py.sorted (p_snippets json_data) = snippets checker)
    ∧ p_offline_data json_data ≠ Some []
    ∧ (p_offline_data json_data = None → offline_data checker = []).
Proof.
  rewrite flush_data_metadata_dict, json_data_dict_metadata_dict.
  unfold special_rules. simpl. rewrite <- contains_spec. split.
  - intros (_ & Hd & Hi & Himg & Hk & _ & Ha & Hs & Ht & Ho)%metadata_dict_inj.
    split_and!; try done.
    + destruct (Py.contains _ _); [by right | by left].
    + case_bool_decide; [by right | by left].
    + intros Hsome. rewrite Hsome in Ho. done.
    + intros Hnone. rewrite Hnone in Ho. by destruct (offline_data checker).
  - intros (Ht & Hi & Himg & Hk & Ha & Hd & Hs & Ho & Hn).
    rewrite <- Ht, <- Hi, <- Himg, <- Hk, <- Ha. f_equal.
    + destruct (Py.contains _ _) eqn:Hc; [done |]. by destruct Hd.
    + case_bool_decide as Hsorted; [done |]. by destruct Hs.
    + destruct (p_offline_data json_data) as [[| x l] |]; [done | done |].
      by rewrite Hn.
Qed.

Lemma compared_dictionaries_equal_witness :
  flush_data
    (special_rules derived_display_map
       (persisted_display_map "Display a map" ["B.swift"; "A.swift"]))
  = json_data_dict (persisted_display_map "Display a map" ["B.swift"; "A.swift"]).
Proof.
  apply compared_dictionaries_equal. vm_compute.
  split_and!; try reflexivity; try discriminate.
  - right. exists "", " with an imagery basemap.". reflexivity.
  - right. reflexivity.
Defined.

(** X11. The special rules never override what is derived from the README
    or the images, and the rule of the snippets only reorders the derived
    list. *)
Theorem special_rules_keeps_derived checker json_data :
  title (special_rules checker json_data) = title checker
  ∧ keywords (special_rules checker json_data) = keywords checker
  ∧ relevant_apis (special_rules checker json_data) = relevant_apis checker
  ∧ images (special_rules checker json_data) = images checker
  ∧ snippets (special_rules checker json_data) ≡ₚ snippets checker.
Proof.
  split_and!; try done. simpl.
  case_bool_decide as Hsorted; [| done].
  rewrite <- Hsorted. symmetry. apply sorted_by_Permutation.
Qed.

(** ** The outcomes of the metadata check *)

Lemma check_category_OK self :
  check_category self = OK () ↔ category self ∈ categories.
Proof.
  unfold check_category. destruct (category self) as [| c s] eqn:Hc; simpl.
  - split; [done |]. intros Hin. by destruct empty_not_category.
  - case_bool_decide as Hin; [by split |]. split; [intros _ | done].
    by destruct (decide (String c s ∈ categories)).
Qed.

Lemma populated_folder_path `{OsPath} `{StrCase}
    path readme_content listdir derived checker :
  populate_from_readme (Metadata_init path) readme_content = OK derived →
  populate_from_paths derived listdir = OK checker →
  folder_path checker = path.
Proof.
  intros Hreadme Hpaths.
  destruct (populate_from_readme_OK _ _ _ Hreadme)
    as (? & ? & ? & ? & ? & ? & ? & ? & _ & _ & _ & _ & _ & _ & _ & _ & ->).
  by destruct (populate_from_paths_OK _ _ _ Hpaths) as (? & ? & ->).
Qed.

(** X12. [run_check] succeeds exactly when the two populations succeed, the
    serialisation of the checker after the special rules is the
    serialisation of the persisted record, and the persisted category is
    one of the categories. *)
Theorem run_check_succeeds `{OsPath} `{StrCase} `{JsonDumps}
    path readme_content listdir json_data :
  run_check path readme_content listdir json_data = OK ()
  ↔ ∃ derived checker,
      populate_from_readme (Metadata_init path) readme_content = OK derived
      ∧ populate_from_paths derived listdir = OK checker
      ∧ flush_to_json_string (special_rules checker json_data)
        = json_dumps (json_data_dict json_data)
      ∧ p_category json_data ∈ categories.
Proof.
  unfold run_check, compare_and_check. split.
  - destruct (populate_from_readme _ _) as [derived |]; simpl; [| done].
    destruct (populate_from_paths _ _) as [checker |] eqn:Hp; simpl; [| done].
    case_bool_decide as Hneq; [done |].
    destruct (check_category _) as [[] |] eqn:Hcat; [| done].
    intros _. exists derived, checker. split_and!; try done.
    + by apply check_category_OK in Hcat.
  - intros (derived & checker & -> & Hp & Hflush & Hcat). simpl.
    rewrite Hp. simpl.
    rewrite bool_decide_eq_false_2 by (by intros ?).
    assert (check_category (special_rules checker json_data) = OK ()) as ->; [| done].
    by apply check_category_OK.
Qed.

(** X13. An error of [run_check] is the error of the population from the
    README, or that of the population from the paths, or the error of
    inconsistent metadata with two different serialisations, or the error
    of the category, tagged with the path of the sample, for a persisted
    category that is empty or is not one of the categories. *)
Theorem run_check_errors `{OsPath} `{StrCase} `{JsonDumps}
    path readme_content listdir json_data e :
  run_check path readme_content listdir json_data = Error e →
  populate_from_readme (Metadata_init path) readme_content = Error e
  ∨ (∃ derived,
       populate_from_readme (Metadata_init path) readme_content = OK derived
       ∧ populate_from_paths derived listdir = Error e)
  ∨ (∃ new original,
       new ≠ original ∧ e = Error_inconsistent_metadata path new original)
  ∨ (p_category json_data = "" ∧ e = At_path path Missing_category)
  ∨ ((p_category json_data ∉ categories)
     ∧ e = At_path path (Invalid_category (p_category json_data))).
Proof.
  unfold run_check, compare_and_check.
  destruct (populate_from_readme _ _) as [derived |] eqn:Hreadme; simpl;
    [| intros [= <-]; by left].
  destruct (populate_from_paths _ _) as [checker |] eqn:Hpaths; simpl;
    [| intros [= <-]; right; left; by exists derived].
  rewrite (populated_folder_path _ _ _ _ _ Hreadme Hpaths).
  case_bool_decide as Hneq.
  { intros [= <-]. right; right; left. by eexists _, _. }
  unfold check_category. simpl.
  destruct (p_category json_data) as [| c s] eqn:Hc; simpl.
  { intros [= <-]. right; right; right; by left. }
  case_bool_decide as Hin; [| done].
  intros [= <-]. right; right; right; by right.
Qed.

Lemma run_check_errors_witness :
  @run_check PosixExample.os_path AsciiCase.instance JsonExample.dumps
    "Shared/Samples/Display Map" readme_display_map
    ["image.png"; "A.swift"]
    (persisted_display_map "Display a map with an imagery basemap." ["A.swift"])
  = Error (Folder_name_incorrect "Display Map").
Proof.
  destruct (@run_check PosixExample.os_path AsciiCase.instance JsonExample.dumps
              "Shared/Samples/Display Map" readme_display_map
              ["image.png"; "A.swift"]
              (persisted_display_map "Display a map with an imagery basemap."
                 ["A.swift"])) as [[] | e] eqn:Hrun.
  - lazy in Hrun. discriminate Hrun.
  - destruct (@run_check_errors
                PosixExample.os_path AsciiCase.instance JsonExample.dumps
                _ _ _ _ _ Hrun)
      as [He | [(d & Hd & _) | [(n & o & _ & He) | [[Hc _] | [Hc _]]]]].
    + lazy in He. injection He as <-. reflexivity.
    + lazy in Hd. discriminate Hd.
    + lazy in Hrun. rewrite He in Hrun. discriminate Hrun.
    + lazy in Hc. discriminate Hc.
    + destruct Hc. refine (bool_decide_unpack _ _). vm_compute. exact I.
Defined.

(** ** The population from the paths *)

Lemma elem_of_sorted_filter (f : string → bool) (l : list string) x :
  x ∈ Py.sorted (List.filter f l) ↔ x ∈ l ∧ f x = true.
Proof.
  unfold Py.sorted. rewrite (sorted_by_Permutation id (List.filter f l)).
  by rewrite !list_elem_of_In, filter_In.
Qed.

Lemma filter_nil_Forall {A} (f : A → bool) l :
  List.filter f l = [] ↔ Forall (λ x, f x = false) l.
Proof.
  induction l as [| x l IH]; simpl; [by split; [constructor |] |].
  rewrite Forall_cons. destruct (f x); [| by rewrite IH; intuition].
  split; [done | by intros [? _]].
Qed.

(** X14. After a successful [populate_from_paths], the snippets are the
    entries of the folder with the extension [.swift] and the images those
    whose extension in lower case is [.png] or [.gif]; both lists are
    sorted in the code-point order and neither is empty. *)
Theorem populate_from_paths_lists `{OsPath} `{StrCase} self listdir checker :
  populate_from_paths self listdir = OK checker →
  (∀ file, file ∈ snippets checker
           ↔ file ∈ listdir ∧ (splitext file).2 = ".swift")
  ∧ (∀ file, file ∈ images checker
             ↔ file ∈ listdir
               ∧ (lower (splitext file).2 = ".png"
                  ∨ lower (splitext file).2 = ".gif"))
  ∧ StronglySorted code_point_le (snippets checker)
  ∧ StronglySorted code_point_le (images checker)
  ∧ snippets checker ≠ [] ∧ images checker ≠ [].
Proof.
  unfold populate_from_paths, get_images_paths, get_source_code_paths.
  set (is_image := λ file,
         bool_decide (lower (splitext file).2 ∈ [".png"; ".gif"])).
  set (is_source := λ file, bool_decide ((splitext file).2 ∈ [".swift"])).
  destruct (List.filter is_image listdir) as [| img imgs] eqn:Himgs; [done |].
  cbn [mbind result_bind].
  destruct (List.filter is_source listdir) as [| src srcs] eqn:Hsrcs; [done |].
  cbn [mbind result_bind]. intros [= <-]. cbn [snippets images set_paths_fields].
  change (Py.insert_by id src (Py.sorted srcs)) with (Py.sorted (src :: srcs)).
  change (Py.insert_by id img (Py.sorted imgs)) with (Py.sorted (img :: imgs)).
  rewrite <- Himgs, <- Hsrcs.
  assert (∀ l : list string, l ≠ [] → Py.sorted l ≠ []) as Hne.
  { intros l Hl Hs. apply Hl. apply Permutation_nil_r.
    rewrite <- Hs. unfold Py.sorted. by rewrite sorted_by_Permutation. }
  split_and!.
  - intros file. rewrite elem_of_sorted_filter. unfold is_source.
    rewrite bool_decide_eq_true, list_elem_of_singleton. done.
  - intros file. rewrite elem_of_sorted_filter. unfold is_image.
    rewrite bool_decide_eq_true, !elem_of_cons, elem_of_nil. tauto.
  - apply sorted_by_StronglySorted.
  - apply sorted_by_StronglySorted.
  - apply Hne. by rewrite Hsrcs.
  - apply Hne. by rewrite Himgs.
Qed.

Lemma populate_from_paths_lists_witness :
  ∃ checker,
    @populate_from_paths PosixExample.os_path AsciiCase.instance
      (sample "Display map") ["b.PNG"; "B.swift"; "README.md"; "A.swift"; "a.Swift"]
    = OK checker
    ∧ snippets checker ≠ [] ∧ images checker ≠ [].
Proof.
  eexists. split; [vm_compute; reflexivity |].
  eapply (@populate_from_paths_lists PosixExample.os_path AsciiCase.instance
            (sample "Display map")
            ["b.PNG"; "B.swift"; "README.md"; "A.swift"; "a.Swift"]).
  vm_compute. reflexivity.
Defined.

(** X15. [populate_from_paths] raises the error of the images exactly when
    no entry of the folder is an image, whatever the source files, and the
    error of the source files exactly when there is an image and no entry
    has the extension [.swift]. *)
Theorem populate_from_paths_errors `{OsPath} `{StrCase} self listdir :
  (populate_from_paths self listdir = Error Unable_to_get_images_paths
   ↔ Forall (λ file, lower (splitext file).2 ≠ ".png"
                     ∧ lower (splitext file).2 ≠ ".gif") listdir)
  ∧ (populate_from_paths self listdir = Error Unable_to_get_swift_source_code_paths
     ↔ ¬ Forall (λ file, lower (splitext file).2 ≠ ".png"
                         ∧ lower (splitext file).2 ≠ ".gif") listdir
       ∧ Forall (λ file, (splitext file).2 ≠ ".swift") listdir).
Proof.
  unfold populate_from_paths, get_images_paths, get_source_code_paths.
  set (is_image := λ file,
         bool_decide (lower (splitext file).2 ∈ [".png"; ".gif"])).
  set (is_source := λ file, bool_decide ((splitext file).2 ∈ [".swift"])).
  assert (Forall (λ file, lower (splitext file).2 ≠ ".png"
                          ∧ lower (splitext file).2 ≠ ".gif") listdir
          ↔ List.filter is_image listdir = []) as ->.
  { rewrite filter_nil_Forall. apply Forall_iff. intros file. unfold is_image.
    rewrite bool_decide_eq_false, !elem_of_cons, elem_of_nil. tauto. }
  assert (Forall (λ file, (splitext file).2 ≠ ".swift") listdir
          ↔ List.filter is_source listdir = []) as ->.
  { rewrite filter_nil_Forall. apply Forall_iff. intros file. unfold is_source.
    by rewrite bool_decide_eq_false, list_elem_of_singleton. }
  destruct (List.filter is_image listdir) as [| img imgs]; simpl.
  - split; [done |]. split; [done | by intros [? _]].
  - destruct (List.filter is_source listdir) as [| src srcs]; simpl.
    + split; [by split | done].
    + split; split; try done. by intros [_ ?].
Qed.

(** ** The tags and the keywords *)

(** X16. [parse_tags] returns, for every section, the stripped pieces
    between the commas, in the code-point order: a list that is never
    empty. *)
Theorem parse_tags_sorted tags_string :
  ∃ tags,
    parse_tags tags_string = OK tags
    ∧ tags ≡ₚ Py.strip <$> Py.split "," tags_string
    ∧ StronglySorted code_point_le tags
    ∧ tags ≠ [].
Proof.
  unfold parse_tags.
  pose proof (split_nonempty "," tags_string) as Hne.
  destruct (Py.split "," tags_string) as [| piece pieces]; [done |].
  eexists. split_and!; [done | apply sorted_by_Permutation
                        | apply sorted_by_StronglySorted |].
  intros Hnil.
  pose proof (sorted_by_Permutation id (Py.strip <$> (piece :: pieces))) as Hperm.
  unfold Py.sorted in Hnil. rewrite Hnil in Hperm.
  by apply Permutation_nil_cons in Hperm.
Qed.

(** X17. After a successful [populate_from_readme], a word is a keyword
    exactly when it is a parsed tag or a relevant API; when the parsed tags
    are all different and the relevant APIs are all different, so are the
    keywords. *)
Theorem populate_from_readme_keywords_set self readme_content m :
  populate_from_readme self readme_content = OK m →
  ∃ tags_index tags_section tags,
    Py.index (get_readme_parts readme_content).1 "Tags" = Some tags_index
    ∧ (get_readme_parts readme_content).1 !! (tags_index + 1)%nat
      = Some tags_section
    ∧ parse_tags tags_section = OK tags
    ∧ (∀ w : string, w ∈ keywords m ↔ w ∈ tags ∨ w ∈ relevant_apis m)
    ∧ (NoDup tags → NoDup (relevant_apis m) → NoDup (keywords m)).
Proof.
  intros Hm.
  destruct (populate_from_readme_OK _ _ _ Hm)
    as (i & j & head & d & asec & apis & tsec & tags
        & _ & Hj & _ & _ & _ & _ & Htsec & Htags & ->).
  exists j, tsec, tags. simpl.
  assert (∀ w : string, w ∈ List.filter (λ w, bool_decide (w ∉ apis)) tags
                        ↔ w ∈ tags ∧ w ∉ apis) as Hfilter.
  { intros w. rewrite !list_elem_of_In, filter_In, bool_decide_eq_true.
    by rewrite list_elem_of_In. }
  split_and!; try done.
  - intros w. rewrite elem_of_app, Hfilter.
    destruct (decide (w ∈ apis)); tauto.
  - intros Htagsnd Hapisnd. apply NoDup_app. split_and!; [| | done].
    + apply NoDup_ListNoDup, List.NoDup_filter. by apply NoDup_ListNoDup.
    + intros w Hw. by apply Hfilter in Hw as [_ ?].
Qed.

Lemma populate_from_readme_keywords_set_witness :
  ∃ tags : list string,
    (∀ w : string,
       w ∈ ["basemap"; "visualization"; "Map"; "MapView"]
       ↔ w ∈ tags ∨ w ∈ ["Map"; "MapView"]).
Proof.
  destruct (populate_from_readme_keywords_set
              (sample "Display map") readme_display_map _
              populate_from_readme_display_map)
    as (j & tsec & tags & _ & _ & _ & Hkw & _).
  exists tags. exact Hkw.
Defined.

(** ** The checks of the README checker *)

Lemma passes_Pass (c : checked unit) : passes c = true ↔ c = Pass ().
Proof. destruct c as [[] |]; simpl; by split. Qed.

Lemma is_OK_unit (r : result unit) : is_OK r = true ↔ r = OK ().
Proof. destruct r as [[] |]; simpl; by split. Qed.

Lemma redundant_check_passes_both `{StrCase} readme_parts :
  check_redundant_apis_in_tags readme_parts = Pass () →
  check_format_apis readme_parts = Pass ()
  ∧ check_format_tags readme_parts = Pass ().
Proof.
  unfold check_redundant_apis_in_tags, check_format_apis, check_format_tags.
  destruct (list_index readme_parts "Tags") as [j |]; simpl; [| done].
  destruct (list_index readme_parts "Relevant API") as [i |]; simpl; [| done].
  destruct (getitem readme_parts (i + 1)) as [asec |]; simpl; [| done].
  destruct (check_apis asec) as [aset |]; simpl; [| done].
  destruct (getitem readme_parts (j + 1)) as [tsec |]; simpl; [| done].
  by destruct (check_tags tsec) as [tset |].
Qed.

(** X18. [check_redundant_apis_in_tags] runs [check_apis] and [check_tags]
    again: it passes only if [check_format_apis] and [check_format_tags]
    pass, and when both pass it passes exactly when the set of the APIs
    and the set of the tags are disjoint. *)
Theorem check_redundant_apis_in_tags_passes `{StrCase} readme_parts :
  (check_redundant_apis_in_tags readme_parts = Pass () →
   check_format_apis readme_parts = Pass ()
   ∧ check_format_tags readme_parts = Pass ())
  ∧ (∀ api_index tags_index api_section tags_section api_set tag_set,
       Py.index readme_parts "Relevant API" = Some api_index →
       Py.index readme_parts "Tags" = Some tags_index →
       readme_parts !! (api_index + 1)%nat = Some api_section →
       readme_parts !! (tags_index + 1)%nat = Some tags_section →
       check_apis api_section = OK api_set →
       check_tags tags_section = OK tag_set →
       (check_redundant_apis_in_tags readme_parts = Pass () ↔ api_set ## tag_set)
       ∧ (¬ api_set ## tag_set →
          check_redundant_apis_in_tags readme_parts
          = Fail (Error_checking_extra_tags API_should_not_be_in_tags))).
Proof.
  split; [apply redundant_check_passes_both |].
  intros i j asec tsec aset tset Hi Hj Hasec Htsec Ha Ht.
  unfold check_redundant_apis_in_tags, list_index, getitem.
  rewrite Hj, Hi. simpl. rewrite Hasec. simpl. rewrite Ha. simpl.
  rewrite Htsec. simpl. rewrite Ht. simpl.
  case_bool_decide as Hdisj; split; try done.
Qed.

Lemma check_redundant_apis_in_tags_passes_witness :
  @check_redundant_apis_in_tags AsciiCase.instance
    (get_readme_parts readme_display_map).1
  = Fail (Error_checking_extra_tags API_should_not_be_in_tags).
Proof.
  eapply (proj2 (@check_redundant_apis_in_tags_passes AsciiCase.instance
                   (get_readme_parts readme_display_map).1)
            7%nat 9%nat _ _
            (list_to_set ["Map"; "MapView"])
            (list_to_set ["basemap"; "Map"; "visualization"])).
  - lazy. reflexivity.
  - lazy. reflexivity.
  - lazy. reflexivity.
  - lazy. reflexivity.
  - vm_compute. reflexivity.
  - vm_compute. reflexivity.
  - intros Hdisj. apply (Hdisj "Map"); apply elem_of_list_to_set.
    + apply list_elem_of_here.
    + apply list_elem_of_further, list_elem_of_here.
Defined.



(** ** The sentence case of the title *)

Lemma words_go_blank s :
  (∀ c, Py.mem c s = true → Py.isspace c = true) → words_go "" s = [].
Proof.
  induction s as [| a s IH]; intros Hblank; [done |].
  cbn [words_go]. rewrite (Hblank a) by (by rewrite mem_cons, Ascii.eqb_refl).
  apply IH. intros c Hc. apply Hblank. by rewrite mem_cons, Hc, orb_true_r.
Qed.

Lemma rev_cons_nonempty a cur : ∃ c w, String.rev (String a cur) = String c w.
Proof.
  destruct (String.rev (String a cur)) as [| c w] eqn:Hrev; [| by eauto].
  pose proof (mem_rev a (String a cur)) as Hmem.
  rewrite Hrev, mem_cons, Ascii.eqb_refl in Hmem. done.
Qed.

Lemma words_go_nonblank s :
  ∀ cur,
    cur ≠ "" ∨ (∃ c, Py.mem c s = true ∧ Py.isspace c = false) →
    ∃ c w rest, words_go cur s = String c w :: rest.
Proof.
  induction s as [| a s IH]; intros cur Hsome.
  - destruct Hsome as [Hcur | (c & Hc & _)]; [| done].
    destruct cur as [| b cur]; [done |]. simpl.
    destruct (rev_cons_nonempty b cur) as (c & w & ->). by eauto.
  - cbn [words_go]. destruct (Py.isspace a) eqn:Ha.
    + destruct cur as [| b cur].
      * apply IH. right. destruct Hsome as [? | (c & Hc & Hsp)]; [done |].
        exists c. split; [| done]. rewrite mem_cons in Hc.
        destruct (Ascii.eqb_spec c a) as [Heq | _]; [congruence | done].
      * destruct (rev_cons_nonempty b cur) as (c & w & ->). by eauto.
    + apply IH. by left.
Qed.

Lemma lstrip_by_head p s :
  Py.lstrip_by p s = "" ∨ ∃ c s', Py.lstrip_by p s = String c s' ∧ p c = false.
Proof.
  induction s as [| a s IH]; simpl; [by left |].
  destruct (p a) eqn:Hpa; [done |]. right. by exists a, s.
Qed.

Lemma rstrip_by_nonblank p s :
  Py.rstrip_by p s = ""
  ∨ ∃ c, Py.mem c (Py.rstrip_by p s) = true ∧ p c = false.
Proof.
  unfold Py.rstrip_by.
  destruct (lstrip_by_head p (String.rev s)) as [-> | (c & s' & -> & Hc)];
    [by left | right].
  exists c. split; [| done]. by rewrite mem_rev, mem_cons, Ascii.eqb_refl.
Qed.

Lemma not_blank_exception s :
  (∀ c, Py.mem c s = true → Py.isspace c = true) → s ∉ exception_proper_nouns.
Proof.
  intros Hblank. unfold exception_proper_nouns.
  rewrite !elem_of_union, !elem_of_singleton.
  assert (∀ c s', s = String c s' → Py.isspace c = false → False) as Hhead.
  { intros c s' -> Hc. rewrite Hblank in Hc; [done |].
    by rewrite mem_cons, Ascii.eqb_refl. }
  intros Hin.
  repeat (destruct Hin as [Hin | Hin]; [| by eapply Hhead]).
  by eapply Hhead.
Qed.

(** X20. On a text that is not empty and holds only whitespace,
    [check_sentence_case] does not raise one of its own errors: the list
    of the words is empty and [words[0]] raises an [IndexError]. *)
Theorem check_sentence_case_blank `{StrCase} s :
  s ≠ "" →
  (∀ c, Py.mem c s = true → Py.isspace c = true) →
  check_sentence_case s = Fail (Raised IndexError_list_index_out_of_range).
Proof.
  intros Hne Hblank. unfold check_sentence_case.
  destruct s as [| a s]; [done |]. cbn [Py.truthy negb].
  rewrite bool_decide_eq_false_2 by (by apply not_blank_exception).
  unfold words. by rewrite words_go_blank.
Qed.

Lemma check_sentence_case_blank_witness :
  @check_sentence_case AsciiCase.instance "  "
  = Fail (Raised IndexError_list_index_out_of_range).
Proof.
  apply (@check_sentence_case_blank AsciiCase.instance "  "); [discriminate |].
  intros c Hc. apply orb_true_iff in Hc as [Hc | Hc].
  - apply Ascii.eqb_eq in Hc as ->. reflexivity.
  - apply orb_true_iff in Hc as [Hc | Hc]; [| discriminate Hc].
    apply Ascii.eqb_eq in Hc as ->. reflexivity.
Defined.

Lemma check_sentence_case_rstrip `{StrCase} x :
  check_sentence_case (Py.rstrip x)
  ≠ Fail (Raised IndexError_list_index_out_of_range).
Proof.
  unfold check_sentence_case, Py.rstrip.
  destruct (rstrip_by_nonblank Py.isspace x) as [-> | (c & Hc & Hsp)]; [done |].
  destruct (negb _); [done |].
  case_bool_decide; [done |].
  destruct (words_go_nonblank (Py.rstrip_by Py.isspace x) "")
    as (c' & w & rest & Hwords); [right; by exists c |].
  unfold words. rewrite Hwords.
  destruct (_ && _); [done |].
  by destruct (List.find _ _).
Qed.

Lemma parse_head_title_form head_string new_title new_description :
  parse_head head_string = OK (new_title, new_description) →
  ∃ x, new_title = Py.rstrip x.
Proof.
  unfold parse_head.
  destruct (Py.filter_nonempty (Py.splitlines head_string)) as [| a [| b [| c l]]];
    simpl; try done.
  intros [= <- _]. by eexists.
Qed.

(** X21. On the parts of a README, [check_format_title_section] never
    fails with an [IndexError]: the title block exists, and the title that
    [parse_head] returns is empty or holds a word, so the lookup of the
    first word in [check_sentence_case] is in range. *)
Theorem check_format_title_section_no_index_error `{StrCase} content :
  check_format_title_section (get_readme_parts content).1
  ≠ Fail (Error_title (Raised IndexError_list_index_out_of_range)).
Proof.
  unfold check_format_title_section, get_readme_parts. simpl.
  destruct (re_split_shape content) as (body & rest & -> & _ & _).
  unfold getitem. simpl.
  destruct (parse_head body) as [[t d] | e] eqn:Hhead.
  - destruct (parse_head_title_form _ _ _ Hhead) as [x ->].
    pose proof (check_sentence_case_rstrip x) as Hcase.
    destruct (check_sentence_case _) as [[] | e]; [done |].
    intros [= ->]. done.
  - destruct (parse_head_cases body) as [(t & d & Heq) | Heq];
      rewrite Heq in Hhead; [done |].
    injection Hhead as <-. done.
Qed.

(** ** The creation of a metadata file *)

(** X22. [create_one_metadata] writes no file exactly when the population
    from the README raises or no entry of the folder has the extension
    [.swift]: a folder without images is no obstacle, since the override of
    [get_images_paths] returns the empty list. What it writes goes to
    [new-README.metadata.json] in the folder of the sample and ends with a
    line feed. *)
Theorem create_one_metadata_writes `{OsPath} `{StrCase} `{JsonDumps}
    path readme_content listdir :
  (create_one_metadata path readme_content listdir = None
   ↔ (∃ e, populate_from_readme (Metadata_init path) readme_content = Error e)
     ∨ Forall (λ file, (splitext file).2 ≠ ".swift") listdir)
  ∧ (∀ written,
       create_one_metadata path readme_content listdir = Some written →
       written.1 = path_join path "new-README.metadata.json"
       ∧ ∃ derived,
           populate_from_readme (Metadata_init path) readme_content = OK derived
           ∧ written.2
             = json_dumps
                 (flush_data
                    (set_paths_fields derived (creator_get_images_paths listdir)
                       (Py.sorted
                          (List.filter
                             (λ file, bool_decide ((splitext file).2 ∈ [".swift"]))
                             listdir))))
               +:+ nl).
Proof.
  unfold create_one_metadata, creator_populate_from_paths, get_source_code_paths.
  set (is_source := λ file, bool_decide ((splitext file).2 ∈ [".swift"])).
  assert (Forall (λ file, (splitext file).2 ≠ ".swift") listdir
          ↔ List.filter is_source listdir = []) as ->.
  { rewrite filter_nil_Forall. apply Forall_iff. intros file. unfold is_source.
    by rewrite bool_decide_eq_false, list_elem_of_singleton. }
  destruct (populate_from_readme _ _) as [derived | e]; cbn [mbind result_bind].
  2:{ split; [| done]. split; [| done]. intros _. left. by exists e. }
  destruct (List.filter is_source listdir) as [| src srcs] eqn:Hsrcs;
    cbn [mbind result_bind].
  - split; [| done]. split; [by right | done].
  - split.
    + split; [done |]. by intros [[e He] | Hnil].
    + intros written [= <-]. split; [done |]. by exists derived.
Qed.

Lemma create_one_metadata_writes_witness :
  ∃ derived,
    populate_from_readme
      (@Metadata_init PosixExample.os_path "Shared/Samples/Display map")
      readme_display_map = OK derived.
Proof.
  destruct (@create_one_metadata PosixExample.os_path AsciiCase.instance
              JsonExample.dumps "Shared/Samples/Display map" readme_display_map
              ["A.swift"]) as [written |] eqn:Hcreate.
  - destruct (proj2 (@create_one_metadata_writes
                       PosixExample.os_path AsciiCase.instance JsonExample.dumps
                       "Shared/Samples/Display map" readme_display_map ["A.swift"])
                written Hcreate) as (_ & derived & Hd & _).
    exists derived. exact Hd.
  - apply (@create_one_metadata_writes
             PosixExample.os_path AsciiCase.instance JsonExample.dumps) in Hcreate.
    destruct Hcreate as [[e He] | Hnone].
    + lazy in He. discriminate He.
    + apply Forall_cons in Hnone as [Hext _]. lazy in Hext. by destruct Hext.
Defined.

(** ** The name of the folder *)

Lemma split_go_no_separator sep cur s :
  Py.mem sep cur = false →
  Forall (λ piece, Py.mem sep piece = false) (Py.split_go sep cur s).
Proof.
  revert cur. induction s as [| c s IH]; intros cur Hcur; simpl.
  - constructor; [by rewrite mem_rev | constructor].
  - destruct (Ascii.eqb_spec c sep) as [-> | Hc].
    + constructor; [by rewrite mem_rev | by apply IH].
    + apply IH. rewrite mem_cons, Hcur, orb_false_r.
      apply Ascii.eqb_neq. congruence.
Qed.

Lemma last_Forall {A} (P : A → Prop) l d : Forall P l → P d → P (List.last l d).
Proof.
  induction 1 as [| x l Hx Hl IH]; intros Hd; [done |].
  simpl. destruct l; [done | by apply IH].
Qed.

(** X23. The name of the folder that [get_folder_name_from_path] returns
    holds no path separator, whatever the normalised path is. *)
Theorem get_folder_name_from_path_no_separator `{OsPath} path :
  Py.mem "/" (get_folder_name_from_path path) = false.
Proof.
  unfold get_folder_name_from_path, Py.split.
  apply (last_Forall (λ piece, Py.mem "/" piece = false)); [| done].
  by apply split_go_no_separator.
Qed.
